(** * The deployment notebook of marvin, embedded in Rocq

    [docs/src/docs/deployment.ipynb] holds two FastAPI examples: a
    declarative gateway that registers three AI callables as routes, and a
    to-do tracker whose single handler [run] forwards an update and a
    client-held state to an [AIApplication].

    Python objects that can be shared and mutated (lists, [ToDoState]
    instances) live in an explicit heap; everything else is a plain value.
    The semantics of [BaseModel] (field defaults, validation in lax mode)
    and of FastAPI's routing and parameter handling are those of
    pydantic 2 and FastAPI, the versions [marvin.beta] runs on. *)

From Stdlib Require Import ZArith NArith Lia Ascii String.
From stdpp Require Import base option list strings.

Local Open Scope string_scope.
Local Open Scope list_scope.

(** ** Python values crossing the HTTP and constructor boundaries *)

(** [datetime.datetime], naive (no time zone), to the second. *)
Record datetime := mkDatetime {
  year : N; month : N; day : N; hour : N; minute : N; second : N
}.

#[local] Set Warnings "-register-all".

(** Keyword arguments, request bodies and JSON documents. *)
Inductive value :=
| VNone
| VBool (b : bool)
| VInt (n : Z)
| VStr (s : string)
| VDatetime (d : datetime)
| VList (items : list value)
| VDict (entries : list (string * value)).

(** [d.get(k)]: the first binding of [k]. *)
Fixpoint assoc {A} (k : string) (kv : list (string * A)) : option A :=
  match kv with
  | [] => None
  | (k', v) :: rest => if String.eqb k k' then Some v else assoc k rest
  end.

(** What pydantic reports when a model cannot be built: the first error,
    named by the last component of its location. *)
Inductive validation_error :=
| Missing (field : string)
| WrongType (field : string).

(** How a validation ends: with the validated value, with an error that
    pydantic reports, or [Undecided] on an input that pydantic's lax mode
    reads in a way the values here cannot follow (a time zone, a
    timestamp, another spelling of a date). [Err] is only ever answered
    where pydantic refuses the input. *)
Inductive result (A : Type) :=
| Ok (a : A)
| Err (e : validation_error)
| Undecided.
Arguments Ok {A} a.
Arguments Err {A} e.
Arguments Undecided {A}.

#[global] Instance result_bind : MBind result := fun A B k r =>
  match r with
  | Ok a => k a
  | Err e => Err e
  | Undecided => Undecided
  end.


Definition is_some {A} (o : option A) : bool :=
  match o with Some _ => true | None => false end.

(** ** ISO 8601 date-times, the spelling the notebook's example uses *)

Definition digit (c : ascii) : option N :=
  let n := Ascii.N_of_ascii c in
  if ((48 <=? n) && (n <=? 57))%N then Some (n - 48)%N else None.

Fixpoint digits (cs : list ascii) (acc : N) : option N :=
  match cs with
  | [] => Some acc
  | c :: rest =>
      match digit c with
      | Some d => digits rest (10 * acc + d)%N
      | None => None
      end
  end.

Definition is_leap (y : N) : bool :=
  ((y mod 4 =? 0) && (negb (y mod 100 =? 0) || (y mod 400 =? 0)))%N.

Definition days_in_month (y m : N) : N :=
  match m with
  | 2%N => if is_leap y then 29%N else 28%N
  | 4%N | 6%N | 9%N | 11%N => 30%N
  | _ => 31%N
  end.

Definition valid_datetime (d : datetime) : bool :=
  ((1 <=? year d) && (year d <=? 9999)
   && (1 <=? month d) && (month d <=? 12)
   && (1 <=? day d) && (day d <=? days_in_month (year d) (month d))
   && (hour d <? 24) && (minute d <? 60) && (second d <? 60))%N.

Definition is_char (c : ascii) (expected : string) : bool :=
  String.eqb (String c EmptyString) expected.

(** A date-time spelled [YYYY-MM-DDTHH:MM:SS], the way [isoformat] writes
    a naive [datetime] without microseconds. *)
Definition parse_datetime (s : string) : option datetime :=
  match list_ascii_of_string s with
  | [y1; y2; y3; y4; c1; m1; m2; c2; d1; d2; t; h1; h2; c3; n1; n2; c4; s1; s2] =>
      if is_char c1 "-" && is_char c2 "-" && is_char t "T"
         && is_char c3 ":" && is_char c4 ":"
      then
        y ← digits [y1; y2; y3; y4] 0%N;
        m ← digits [m1; m2] 0%N;
        d ← digits [d1; d2] 0%N;
        h ← digits [h1; h2] 0%N;
        n ← digits [n1; n2] 0%N;
        sec ← digits [s1; s2] 0%N;
        let dt := mkDatetime y m d h n sec in
        if valid_datetime dt then Some dt else None
      else None
  | _ => None
  end.

(** [s] has the form [dddd-dd-ddTdd:dd:dd], whatever the numbers are. *)
Definition iso_shaped (s : string) : bool :=
  match list_ascii_of_string s with
  | [y1; y2; y3; y4; c1; m1; m2; c2; d1; d2; t; h1; h2; c3; n1; n2; c4; s1; s2] =>
      is_char c1 "-" && is_char c2 "-" && is_char t "T"
      && is_char c3 ":" && is_char c4 ":"
      && is_some (digits [y1; y2; y3; y4; m1; m2; d1; d2; h1; h2; n1; n2; s1; s2] 0%N)
  | _ => false
  end.

Definition digit_char (n : N) : ascii := Ascii.ascii_of_N (48 + n mod 10).

Definition pad2 (n : N) : string :=
  String (digit_char (n / 10)) (String (digit_char n) EmptyString).

Definition pad4 (n : N) : string :=
  String (digit_char (n / 1000)) (String (digit_char (n / 100)) (pad2 n)).

(** [datetime.isoformat()]. *)
Definition isoformat (d : datetime) : string :=
  pad4 (year d) +:+ "-" +:+ pad2 (month d) +:+ "-" +:+ pad2 (day d) +:+ "T"
  +:+ pad2 (hour d) +:+ ":" +:+ pad2 (minute d) +:+ ":" +:+ pad2 (second d).

(** ** The to-do records *)

(** [class ToDo(BaseModel)]. [due_date] is annotated [datetime] but its
    default [None] is stored unvalidated, hence the option. *)
Record ToDo := mkToDo {
  title : string;
  description : string;
  due_date : option datetime;
  done : bool
}.

(** Field validators, in pydantic's lax mode: the notebook's models set
    no [strict]. A [str] field takes a string and nothing else. *)
Definition validate_str (field : string) (v : value) : result string :=
  match v with
  | VStr s => Ok s
  | _ => Err (WrongType field)
  end.

Definition lower_ascii (c : ascii) : ascii :=
  let n := Ascii.N_of_ascii c in
  if ((65 <=? n) && (n <=? 90))%N then Ascii.ascii_of_N (n + 32) else c.

Fixpoint lower (s : string) : string :=
  match s with
  | EmptyString => EmptyString
  | String c rest => String (lower_ascii c) (lower rest)
  end.

(** The strings pydantic reads as a [bool], in any letter case. *)
Definition str_as_bool (s : string) : option bool :=
  if String.eqb s "0"
     || existsb (String.eqb (lower s)) ["f"; "n"; "no"; "off"; "false"]
  then Some false
  else if String.eqb s "1"
          || existsb (String.eqb (lower s)) ["t"; "y"; "on"; "yes"; "true"]
  then Some true
  else None.

(** A [bool] field takes a bool, the integers 0 and 1, and the strings of
    [str_as_bool]. *)
Definition validate_bool (field : string) (v : value) : result bool :=
  match v with
  | VBool b => Ok b
  | VInt 0 => Ok false
  | VInt 1 => Ok true
  | VStr s =>
      match str_as_bool s with
      | Some b => Ok b
      | None => Err (WrongType field)
      end
  | _ => Err (WrongType field)
  end.

(** A [datetime] field takes a [datetime] and a string in ISO 8601. Of the
    strings, those of the form [YYYY-MM-DDTHH:MM:SS] are decided here: they
    name a date-time or are refused. pydantic reads more (a bare date,
    another separator, no seconds, fractions, offsets, and numbers, of
    which Python's [bool] is one, as timestamps), into values a
    [datetime] record here may not hold: these are left [Undecided]. *)
Definition validate_datetime (field : string) (v : value) : result datetime :=
  match v with
  | VDatetime d => Ok d
  | VStr s =>
      match parse_datetime s with
      | Some d => Ok d
      | None => if iso_shaped s then Err (WrongType field) else Undecided
      end
  | VInt _ | VBool _ => Undecided
  | _ => Err (WrongType field)
  end.

(** A field without a default must be present. *)
Definition required {A} (check : string -> value -> result A)
    (field : string) (kwargs : list (string * value)) : result A :=
  match assoc field kwargs with
  | Some v => check field v
  | None => Err (Missing field)
  end.

(** A field with a default: the given value is validated, the default is
    taken as it is. *)
Definition defaulted {A} (check : string -> value -> result A)
    (field : string) (default : A) (kwargs : list (string * value)) : result A :=
  match assoc field kwargs with
  | Some v => check field v
  | None => Ok default
  end.

(** [ToDo(title=..., description=..., ...)] on keyword arguments [kwargs];
    keys that name no field are ignored. *)
Definition ToDo_init (kwargs : list (string * value)) : result ToDo :=
  t ← required validate_str "title" kwargs;
  d ← required validate_str "description" kwargs;
  due ← defaulted (fun f v => dt ← validate_datetime f v; Ok (Some dt))
          "due_date" None kwargs;
  dn ← defaulted validate_bool "done" false kwargs;
  Ok (mkToDo t d due dn).

(** Validation of one element of [list[ToDo]]: an instance is not modelled
    as a value here, so the element is a dict. *)
Definition ToDo_validate (field : string) (v : value) : result ToDo :=
  match v with
  | VDict kwargs => ToDo_init kwargs
  | _ => Err (WrongType field)
  end.

Fixpoint validate_all {A} (check : value -> result A) (vs : list value)
    : result (list A) :=
  match vs with
  | [] => Ok []
  | v :: rest =>
      a ← check v;
      more ← validate_all check rest;
      Ok (a :: more)
  end.

Definition validate_todos (field : string) (v : value) : result (list ToDo) :=
  match v with
  | VList vs => validate_all (ToDo_validate field) vs
  | _ => Err (WrongType field)
  end.

(** [model_dump(mode="json")] of a [ToDo]. *)
Definition ToDo_dump (t : ToDo) : value :=
  VDict [("title", VStr (title t));
         ("description", VStr (description t));
         ("due_date", match due_date t with
                      | Some d => VStr (isoformat d)
                      | None => VNone
                      end);
         ("done", VBool (done t))].

(** The keyword arguments that rebuild a [ToDo] from its field values. *)
Definition ToDo_kwargs (t : ToDo) : list (string * value) :=
  [("title", VStr (title t)); ("description", VStr (description t))]
  ++ match due_date t with
     | Some d => [("due_date", VDatetime d)]
     | None => []
     end
  ++ [("done", VBool (done t))].

(** ** The heap of shared Python objects *)

(** Addresses of objects. *)
Abbreviation loc := nat.

(** [class ToDoState(BaseModel)]: an instance, whose [todos] attribute
    refers to a list object. *)
Record ToDoState := mkToDoState { todos : loc }.

Inductive object :=
| PyList (items : list ToDo)
| PyToDoState (self : ToDoState).

Abbreviation heap := (list object).

(** How a call ends: with a value, with a Python exception, or [Fault]
    where the model has no answer: when a reference does not point to an
    object of the expected class (which no Python program can observe),
    and when a validation is [Undecided]. *)
Inductive outcome (E A : Type) :=
| Return (a : A)
| Raise (e : E)
| Fault.
Arguments Return {E A} a.
Arguments Raise {E A} e.
Arguments Fault {E A}.

(** Computations over a state [S] that may raise an [E]. *)
Definition ST (S E A : Type) : Type := S -> outcome E A * S.

#[global] Instance ST_ret {S E} : MRet (ST S E) := fun A a s => (Return a, s).

#[global] Instance ST_bind {S E} : MBind (ST S E) := fun A B k c s =>
  match c s with
  | (Return a, s') => k a s'
  | (Raise e, s') => (Raise e, s')
  | (Fault, s') => (Fault, s')
  end.

Definition raise {S E A} (e : E) : ST S E A := fun s => (Raise e, s).

Definition fault {S E A} : ST S E A := fun s => (Fault, s).

Definition returns {S E A} (r : outcome E A * S) : bool :=
  match r.1 with Return _ => true | _ => false end.

(** Steps of the Python program on the heap; they raise validation errors. *)
Abbreviation Py := (ST heap validation_error).

(** Object creation: the new object gets the next free address. *)
Definition new (o : object) : Py loc :=
  fun h => (Return (length h), h ++ [o]).

Definition get_list (l : loc) : Py (list ToDo) :=
  fun h => match h !! l with
           | Some (PyList items) => (Return items, h)
           | _ => (Fault, h)
           end.

(** [l[:] = items]: the list object keeps its identity. *)
Definition set_list (l : loc) (items : list ToDo) : Py unit :=
  fun h => match h !! l with
           | Some (PyList _) => (Return tt, <[l := PyList items]> h)
           | _ => (Fault, h)
           end.

(** [s.todos] *)
Definition get_todos (s : loc) : Py loc :=
  fun h => match h !! s with
           | Some (PyToDoState self) => (Return (todos self), h)
           | _ => (Fault, h)
           end.

Definition check {A} (r : result A) : Py A :=
  match r with
  | Ok a => mret a
  | Err e => raise e
  | Undecided => fault
  end.

(** The to-dos of the instance at [s], by value. *)
Definition read_state (s : loc) (h : heap) : option (list ToDo) :=
  match h !! s with
  | Some (PyToDoState self) =>
      match h !! todos self with
      | Some (PyList items) => Some items
      | _ => None
      end
  | _ => None
  end.

(** ** [ToDoState] and [ToDoResponse] *)

(** The class body of [ToDoState] evaluates the literal [[]] once; the
    resulting list object is the field's default. *)
Definition ToDoState_class : Py loc := new (PyList []).

(** An instance around a list object of its own. *)
Definition new_ToDoState (items : list ToDo) : Py loc :=
  l ← new (PyList items);
  new (PyToDoState (mkToDoState l)).

(** [ToDoState(todos=...)] and [ToDoState()]. A given list is validated
    into a new list; without one pydantic copies the default, so the
    instance never refers to the default list itself. *)
Definition ToDoState_init (default : loc) (kwargs : list (string * value)) : Py loc :=
  items ← match assoc "todos" kwargs with
          | Some v => check (validate_todos "todos" v)
          | None => get_list default
          end;
  new_ToDoState items.

Definition ToDoState_validate (default : loc) (field : string) (v : value) : Py loc :=
  match v with
  | VDict kwargs => ToDoState_init default kwargs
  | _ => raise (WrongType field)
  end.

(** [s.todos.append(t)] *)
Definition todos_append (s : loc) (t : ToDo) : Py unit :=
  l ← get_todos s;
  items ← get_list l;
  set_list l (items ++ [t]).

(** [copy.deepcopy(s)] *)
Definition deepcopy (s : loc) : Py loc :=
  l ← get_todos s;
  items ← get_list l;
  new_ToDoState items.

(** [class ToDoResponse(BaseModel)]; [state] refers to a [ToDoState]. *)
Record ToDoResponse := mkToDoResponse { content : string; state : loc }.

(** [ToDoResponse(content=c, state=s)] with [s] an instance: pydantic
    checks its class and keeps the instance. *)
Definition ToDoResponse_init (c : string) (s : loc) : Py ToDoResponse :=
  _ ← get_todos s;
  mret (mkToDoResponse c s).

(** [ToDoResponse.model_validate(v)] on a parsed JSON document. *)
Definition ToDoResponse_validate (default : loc) (v : value) : Py ToDoResponse :=
  match v with
  | VDict kwargs =>
      c ← check (required validate_str "content" kwargs);
      s ← match assoc "state" kwargs with
          | Some sv => ToDoState_validate default "state" sv
          | None => raise (Missing "state")
          end;
      mret (mkToDoResponse c s)
  | _ => raise (WrongType "ToDoResponse")
  end.

Definition ToDoState_dump (s : loc) : Py value :=
  l ← get_todos s;
  items ← get_list l;
  mret (VDict [("todos", VList (ToDo_dump <$> items))]).

(** The JSON document FastAPI sends for a returned [ToDoResponse]. *)
Definition ToDoResponse_dump (r : ToDoResponse) : Py value :=
  st ← ToDoState_dump (state r);
  mret (VDict [("content", VStr (content r)); ("state", st)]).

(** ** The example response printed at the end of the notebook *)

Definition example_response : value :=
  VDict [("content", VStr "You have an appointment with Craig tomorrow at 9AM.");
         ("state", VDict [("todos", VList [
            VDict [("title", VStr "Appointment with Craig");
                   ("description", VStr "Meeting with Craig tomorrow at 9AM");
                   ("due_date", VStr "2023-07-19T09:00:00");
                   ("done", VBool false)]])])].

Definition example_item : ToDo :=
  mkToDo "Appointment with Craig" "Meeting with Craig tomorrow at 9AM"
    (Some (mkDatetime 2023 7 19 9 0 0)) false.

(** ** The model classes the notebook declares *)

(** [class Person(BaseModel)], decorated with [@ai_model], of the gateway
    example. *)
Record Person := mkPerson { first_name : string; last_name : string }.

Definition Person_init (kwargs : list (string * value)) : result Person :=
  f ← required validate_str "first_name" kwargs;
  l ← required validate_str "last_name" kwargs;
  Ok (mkPerson f l).

(** Field annotations. A model class is its name and its fields: name,
    annotation, and the default when the class body gives one. *)
Inductive annotation :=
| Tstr
| Tbool
| Tdatetime
| Tlist (elem : annotation)
| Tmodel (name : string) (fields : list (string * (annotation * option value))).

Definition class_name (c : annotation) : string :=
  match c with
  | Tmodel name _ => name
  | _ => ""
  end.

Definition class_fields (c : annotation) : list (string * (annotation * option value)) :=
  match c with
  | Tmodel _ fields => fields
  | _ => []
  end.

Definition class_Person : annotation :=
  Tmodel "Person" [("first_name", (Tstr, None)); ("last_name", (Tstr, None))].

Definition class_ToDo : annotation :=
  Tmodel "ToDo" [("title", (Tstr, None));
                 ("description", (Tstr, None));
                 ("due_date", (Tdatetime, Some VNone));
                 ("done", (Tbool, Some (VBool false)))].

Definition class_ToDoState : annotation :=
  Tmodel "ToDoState" [("todos", (Tlist class_ToDo, Some (VList [])))].

Definition class_ToDoResponse : annotation :=
  Tmodel "ToDoResponse" [("content", (Tstr, None)); ("state", (class_ToDoState, None))].

Definition gateway_models : list annotation := [class_Person].

Definition todo_models : list annotation :=
  [class_ToDo; class_ToDoState; class_ToDoResponse].

(** Every [BaseModel] subclass of the notebook, in order of declaration. *)
Definition notebook_models : list annotation := gateway_models ++ todo_models.

(** [v] has the type [a]: each given field has the type of its annotation
    and an absent field has a default. Nothing else is asked of a model. *)
Fixpoint has_type (a : annotation) (v : value) {struct a} : bool :=
  match a, v with
  | Tstr, VStr _ => true
  | Tbool, VBool _ => true
  | Tdatetime, VDatetime _ => true
  | Tdatetime, VStr s => is_some (parse_datetime s)
  | Tlist elem, VList items => forallb (has_type elem) items
  | Tmodel _ fields, VDict kwargs =>
      (fix all_fields (fs : list (string * (annotation * option value))) : bool :=
         match fs with
         | [] => true
         | (name, (ann, dflt)) :: rest =>
             match assoc name kwargs with
             | Some fv => has_type ann fv
             | None => is_some dflt
             end && all_fields rest
         end) fields
  | _, _ => false
  end.

(** ** FastAPI applications and their routes *)

Inductive http_method := GET | POST | PUT | DELETE.

Definition http_method_eqb (a b : http_method) : bool :=
  match a, b with
  | GET, GET | POST, POST | PUT, PUT | DELETE, DELETE => true
  | _, _ => false
  end.

(** The callables the notebook hands to FastAPI. *)
Inductive callable :=
| Fn_generate_fruits
| Fn_generate_vegetables
| Fn_Person_route
| Fn_run.

Record route := mkRoute {
  route_path : string;
  route_methods : list http_method;
  route_endpoint : callable
}.

(** An application is the list of API routes registered on it, in
    registration order. The pages FastAPI serves by itself are not API
    routes: they are [builtin_routes] below, which the router tries
    first. *)
Abbreviation FastAPI := (list route).

(** [FastAPI()] *)
Definition FastAPI_new : FastAPI := [].

(** [app.add_api_route(path, endpoint, methods=methods)] *)
Definition add_api_route_with (methods : list http_method)
    (path : string) (endpoint : callable) (app : FastAPI) : FastAPI :=
  app ++ [mkRoute path methods endpoint].

(** [app.add_api_route(path, endpoint)]: [methods] defaults to [["GET"]]. *)
Definition add_api_route := add_api_route_with [GET].

(** [@app.get(path)] applied to [endpoint]. *)
Definition app_get := add_api_route_with [GET].

(** First code cell: the declarative gateway. *)
Definition gateway_cell : FastAPI :=
  let app := FastAPI_new in
  let app := add_api_route "/generate_fruits" Fn_generate_fruits app in
  let app := add_api_route "/generate_vegetables" Fn_generate_vegetables app in
  let app := add_api_route "/person/extract" Fn_Person_route app in
  app.

(** What the to-do cell leaves bound: the application, the default list of
    [ToDoState.todos], and the default of [run]'s [state] parameter, which
    Python evaluates once, when [def run] executes. *)
Record globals := mkGlobals {
  app : FastAPI;
  ToDoState_todos_default : loc;
  run_state_default : loc
}.

(** Third code cell: the to-do tracker. [app = FastAPI()] rebinds the
    name, so the application bound before is left behind. *)
Definition todo_cell (app : FastAPI) : Py globals :=
  let app := FastAPI_new in
  d ← ToDoState_class;
  s ← ToDoState_init d [];
  let app := app_get "/" Fn_run app in
  mret (mkGlobals app d s).

(** The cells in order, from an empty heap. The second cell only starts
    a server for the first application and binds nothing. *)
Definition notebook : Py globals := todo_cell gateway_cell.

Record request := mkRequest {
  req_method : http_method;
  req_path : string;
  req_query : list (string * string);
  req_body : option value
}.

(** What every [FastAPI()] serves by itself, with [openapi_url],
    [docs_url] and [redoc_url] left at their defaults as in both cells:
    the OpenAPI schema, the Swagger UI page (the one the gateway cell
    points to, "navigate to localhost:8000/docs"), its OAuth2 redirect
    page, and the ReDoc page. *)
Inductive builtin_page :=
| OpenAPI_schema
| Swagger_UI
| Swagger_UI_redirect
| ReDoc.

(** The routes [FastAPI()] sets up before any API route is added; each
    answers GET. *)
Definition builtin_routes : list (string * builtin_page) :=
  [("/openapi.json", OpenAPI_schema);
   ("/docs", Swagger_UI);
   ("/docs/oauth2-redirect", Swagger_UI_redirect);
   ("/redoc", ReDoc)].

(** Responses: 200 with the JSON document an API route returned, 200 with
    one of FastAPI's own pages (whose content is FastAPI's and is not
    followed here), the redirect to a path, and the refusals. *)
Inductive http_response :=
| Http200 (body : value)
| HttpBuiltin (page : builtin_page)
| Http307 (location : string)
| Http404
| Http405
| Http422 (e : validation_error).

Inductive route_match :=
| Matched (endpoint : callable)
| WrongMethod
| NoMatch.

(** Starlette's router on the API routes: the first route matching path
    and method wins; a path that matches under another method only gives
    405. *)
Fixpoint find_route (app : FastAPI) (m : http_method) (path : string) : route_match :=
  match app with
  | [] => NoMatch
  | r :: rest =>
      if String.eqb (route_path r) path then
        if existsb (http_method_eqb m) (route_methods r) then Matched (route_endpoint r)
        else match find_route rest m path with
             | Matched e => Matched e
             | _ => WrongMethod
             end
      else find_route rest m path
  end.

(** The JSON document of a response with content [c] and to-dos [items]. *)
Definition response_body (c : string) (items : list ToDo) : value :=
  VDict [("content", VStr c);
         ("state", VDict [("todos", VList (ToDo_dump <$> items))])].

(** The to-dos a [state] payload stands for, when the default list holds
    [dflt]. *)
Definition payload_todos (dflt : list ToDo) (field : string) (v : value)
    : result (list ToDo) :=
  match v with
  | VDict kwargs =>
      match assoc "todos" kwargs with
      | Some tv => validate_todos "todos" tv
      | None => Ok dflt
      end
  | _ => Err (WrongType field)
  end.

(** Both defaults are as the notebook's cells left them: the default list
    and the list of [run]'s default state are empty. *)
Definition pristine (g : globals) (h : heap) : Prop :=
  app g = [mkRoute "/" [GET] Fn_run]
  /\ h !! ToDoState_todos_default g = Some (PyList [])
  /\ read_state (run_state_default g) h = Some [].

(** The description [run] passes on, as one string. *)
Definition run_description : string :=
  "A simple to-do tracker. Users will give instructions to add, remove, and update their to-dos.".

(** ** The AI application and the handler [run] *)

Section AI.

(** Whatever the assistant talks to (the language model, the network),
    and the exceptions it raises. *)
Variable World : Type.
Variable AIExn : Type.

Inductive exn :=
| ValidationError (e : validation_error)
| AIError (e : AIExn).

(** The calls made to the assistant, for the record. *)
Inductive ai_event :=
| Constructed (description : string) (state : list ToDo)
| Called (description : string) (state : list ToDo) (update : string).

Record machine := mkMachine {
  mem : heap;
  world : World;
  calls : list ai_event
}.

Local Abbreviation M := (ST machine exn).

(** A pydantic or heap step inside the server. *)
Definition lift {A} (c : Py A) : M A := fun m =>
  let '(o, h) := c (mem m) in
  (match o with
   | Return a => Return a
   | Raise e => Raise (ValidationError e)
   | Fault => Fault
   end, mkMachine h (world m) (calls m)).

(** The same, with a validation failure handed back as a value. *)
Definition attempt {A} (c : Py A) : M (validation_error + A) := fun m =>
  let '(o, h) := c (mem m) in
  (match o with
   | Return a => Return (inr a)
   | Raise e => Return (inl e)
   | Fault => Fault
   end, mkMachine h (world m) (calls m)).

(** What one call of the application does: the to-dos it leaves, whether
    it changed the state object it was given or bound a new one, and the
    text it answers with or the exception it raises. *)
Record AIReply := mkReply {
  reply_todos : list ToDo;
  reply_in_place : bool;
  reply_result : AIExn + string
}.

(** The assistant itself is opaque: it sees the description, the to-dos
    of the state and the update, and decides. *)
Variable ai_construct : string -> list ToDo -> World -> option AIExn * World.
Variable ai_respond : string -> list ToDo -> string -> World -> AIReply * World.

Definition ask {A} (question : World -> A * World) (ev : ai_event) : M A := fun m =>
  let '(a, w) := question (world m) in
  (Return a, mkMachine (mem m) w (calls m ++ [ev])).

Record AIApplication := mkAIApplication {
  app_state : loc;
  app_description : string
}.

Record AIResponse := mkAIResponse { response_content : string }.

(** Modelled from the spec: [marvin.beta.applications.AIApplication] is
    not among the sources. The glossary calls it an opaque component
    that accepts free-text instructions and a state object and returns
    a textual response plus updated state. [AIApplication(state=...,
    description=...)] keeps a reference to the state object it is given. *)
Definition AIApplication_new (state : loc) (description : string) : M AIApplication :=
  l ← lift (get_todos state);
  items ← lift (get_list l);
  refusal ← ask (ai_construct description items) (Constructed description items);
  match refusal with
  | Some e => raise (AIError e)
  | None => mret (mkAIApplication state description)
  end.

(** Modelled from the spec: [todo(update)], the call of an
    [AIApplication]. The state is updated before the call returns or
    raises, either inside the list of the state object or by binding
    [todo.state] to a new instance; no other object is touched. The
    application after the call is returned next to the response. *)
Definition AIApplication_call (todo : AIApplication) (update : string)
    : M (AIApplication * AIResponse) :=
  l ← lift (get_todos (app_state todo));
  items ← lift (get_list l);
  reply ← ask (ai_respond (app_description todo) items update)
              (Called (app_description todo) items update);
  todo ← (if reply_in_place reply
          then _ ← lift (set_list l (reply_todos reply)); mret todo
          else s' ← lift (new_ToDoState (reply_todos reply));
               mret (mkAIApplication s' (app_description todo)));
  match reply_result reply with
  | inl e => raise (AIError e)
  | inr c => mret (todo, mkAIResponse c)
  end.

(** [def run(update: str, state: ToDoState = ToDoState()) -> ToDoResponse],
    with both arguments given. *)
Definition run (update : string) (state : loc) : M ToDoResponse :=
  let description :=
    "A simple to-do tracker. Users will give instructions "
    +:+ "to add, remove, and update their to-dos." in
  todo ← AIApplication_new state description;
  '(todo, response) ← AIApplication_call todo update;
  lift (ToDoResponse_init (response_content response) (app_state todo)).

(** A Python call of [run]: an omitted [state] is bound to the one
    default object. *)
Definition run_call (g : globals) (update : string) (state : option loc)
    : M ToDoResponse :=
  run update (default (run_state_default g) state).

(** ** Serving requests *)

(** FastAPI reads [state] from the request body, which it validates as
    a whole: [state] is the only body parameter, so it is not looked up
    under a key and its errors are located at ["body"]. Without a body,
    or with the body [null], FastAPI passes a deep copy of the
    parameter's default. *)
Definition request_state (g : globals) (req : request)
    : M (validation_error + loc) :=
  match req_body req with
  | None | Some VNone => attempt (deepcopy (run_state_default g))
  | Some v => attempt (ToDoState_validate (ToDoState_todos_default g) "body" v)
  end.

(** FastAPI calls the endpoint function with the arguments it resolved
    and sends the returned [ToDoResponse] as JSON. *)
Definition serve_run (update : string) (state : loc) : M http_response :=
  r ← run update state;
  body ← lift (ToDoResponse_dump r);
  mret (Http200 body).

(** The route of [run]: [update] is a required query parameter, [state]
    comes from the body. *)
Definition endpoint_run (g : globals) (req : request) : M http_response :=
  match assoc "update" (req_query req) with
  | None => mret (Http422 (Missing "update"))
  | Some update =>
      st ← request_state g req;
      match st with
      | inl e => mret (Http422 e)
      | inr state => serve_run update state
      end
  end.

(** The AI functions of the gateway, as served by FastAPI. *)
Variable gateway : callable -> request -> M http_response.

(** [path.rstrip("/")] *)
Fixpoint rstrip_slash (path : string) : string :=
  match path with
  | EmptyString => EmptyString
  | String c rest =>
      let rest := rstrip_slash rest in
      if String.eqb rest "" && is_char c "/" then "" else String c rest
  end.

(** The path Starlette tries when none matched: without its trailing
    slashes, or with one added when it has none. *)
Definition slash_toggled (path : string) : string :=
  if String.eqb (rstrip_slash path) path then path +:+ "/" else rstrip_slash path.

(** Some route, of FastAPI's own or of the API, has the path. *)
Definition has_route (app : FastAPI) (path : string) : bool :=
  is_some (assoc path builtin_routes)
  || existsb (fun r => String.eqb (route_path r) path) app.

(** No route has the path: the router ([redirect_slashes] is on by
    default) redirects when the path with its slash toggled has one, and
    answers 404 otherwise. *)
Definition not_found (app : FastAPI) (path : string) : http_response :=
  if negb (String.eqb path "/") && has_route app (slash_toggled path)
  then Http307 (slash_toggled path)
  else Http404.

(** A request on the API routes; [miss] is the answer when no route has
    the path. *)
Definition handle_api (g : globals) (req : request) (miss : http_response)
    : M http_response :=
  match find_route (app g) (req_method req) (req_path req) with
  | Matched Fn_run => endpoint_run g req
  | Matched f => gateway f req
  | WrongMethod => mret Http405
  | NoMatch => mret miss
  end.

(** The application on a request. FastAPI's own routes come first in the
    router: GET on one of their paths is theirs, and another method there
    gives 405 unless an API route takes it. *)
Definition handle (g : globals) (req : request) : M http_response :=
  match assoc (req_path req) builtin_routes with
  | Some page =>
      if http_method_eqb (req_method req) GET
      then mret (HttpBuiltin page)
      else handle_api g req Http405
  | None => handle_api g req (not_found (app g) (req_path req))
  end.

(** ** What a call comes to *)

(** The heap a call of the application leaves, and the state object the
    application then refers to. *)
Definition heap_after (reply : AIReply) (l : loc) (h : heap) : heap :=
  if reply_in_place reply
  then <[l := PyList (reply_todos reply)]> h
  else h ++ [PyList (reply_todos reply); PyToDoState (mkToDoState (length h))].

Definition state_after (reply : AIReply) (s : loc) (h : heap) : loc :=
  if reply_in_place reply then s else S (length h).

(** What a served call of [run] comes to, on a state at list [l] holding
    [items]. *)
Definition answer (update : string) (items : list ToDo) (l : loc)
    (h : heap) (w : World) (cs : list ai_event)
    : outcome (exn) http_response * machine :=
  let '(refusal, w1) := ai_construct run_description items w in
  let cs1 := cs ++ [Constructed run_description items] in
  match refusal with
  | Some e => (Raise (AIError e), mkMachine h w1 cs1)
  | None =>
      let '(reply, w2) := ai_respond run_description items update w1 in
      (match reply_result reply with
       | inl e => Raise (AIError e)
       | inr c => Return (Http200 (response_body c (reply_todos reply)))
       end,
       mkMachine (heap_after reply l h) w2
         (cs1 ++ [Called run_description items update]))
  end.

(** What the to-do application answers without calling [run]: on
    FastAPI's own routes, on another method than GET, and on a path
    that has no route. *)
Definition static_response (req : request) : http_response :=
  match assoc (req_path req) builtin_routes with
  | Some page =>
      if http_method_eqb (req_method req) GET then HttpBuiltin page else Http405
  | None =>
      if String.eqb "/" (req_path req) then Http405
      else not_found [mkRoute "/" [GET] Fn_run] (req_path req)
  end.

(** The to-dos of the state a request carries; none when it has no body. *)
Definition request_todos (req : request) : result (list ToDo) :=
  match req_body req with
  | None | Some VNone => Ok []
  | Some v => payload_todos [] "body" v
  end.

(** What the assistant does when constructed on [items] and then called
    with [update], starting in world [w]. *)
Definition behaviour (items : list ToDo) (update : string) (w : World)
    : option AIExn * AIReply :=
  ((ai_construct run_description items w).1,
   (ai_respond run_description items update
      (ai_construct run_description items w).2).1).

(** What a caller of [run] can see of a result: the exception, or the
    content and the to-dos of the returned state. *)
Definition observe (res : outcome (exn) ToDoResponse * machine)
    : outcome (exn) (string * option (list ToDo)) :=
  match res.1 with
  | Return r => Return (content r, read_state (state r) (mem res.2))
  | Raise e => Raise e
  | Fault => Fault
  end.

(** The server after the notebook's cells, and after any requests. *)
Inductive serving (g : globals) : machine -> Prop :=
| serving_boot h w :
    notebook [] = (Return g, h) ->
    serving g (mkMachine h w [])
| serving_request m req out m' :
    serving g m ->
    handle g req m = (out, m') ->
    serving g m'.

End AI.

Arguments run {World AIExn} ai_construct ai_respond update state.
Arguments run_call {World AIExn} ai_construct ai_respond g update state.
Arguments serve_run {World AIExn} ai_construct ai_respond update state.
Arguments endpoint_run {World AIExn} ai_construct ai_respond g req.
Arguments handle {World AIExn} ai_construct ai_respond gateway g req.
Arguments serving {World AIExn} ai_construct ai_respond gateway g.
Arguments mkMachine {World} mem world calls.
Arguments mem {World}.
Arguments world {World}.
Arguments calls {World}.
Arguments mkReply {AIExn}.
Arguments reply_todos {AIExn}.
Arguments reply_in_place {AIExn}.
Arguments reply_result {AIExn}.
Arguments ValidationError {AIExn}.
Arguments AIError {AIExn}.
Arguments lift {World AIExn A}.
Arguments attempt {World AIExn A}.
Arguments ask {World AIExn A}.
Arguments AIApplication_new {World AIExn}.
Arguments AIApplication_call {World AIExn}.
Arguments request_state {World AIExn}.
Arguments heap_after {AIExn}.
Arguments state_after {AIExn}.
Arguments answer {World AIExn} ai_construct ai_respond update items l h w cs.
Arguments behaviour {World AIExn} ai_construct ai_respond items update w.
Arguments observe {World AIExn} res.

(** ** Instances built from the default *)

(** The heaps reached from the class definition by [ToDoState()] and by
    [s.todos.append(t)] on the instances so built, with those instances. *)
Inductive from_default (d : loc) : heap -> list loc -> Prop :=
| fd_class h0 h :
    ToDoState_class h0 = (Return d, h) ->
    from_default d h []
| fd_new h insts s h' :
    from_default d h insts ->
    ToDoState_init d [] h = (Return s, h') ->
    from_default d h' (s :: insts)
| fd_append h insts s t h' :
    from_default d h insts ->
    s ∈ insts ->
    todos_append s t h = (Return (), h') ->
    from_default d h' insts.

(** Objects that exist stay as they are. *)
Definition keeps (h h' : heap) : Prop :=
  forall l, l < length h -> h' !! l = h !! l.

(** Every instance built from the default is a [ToDoState] object with a
    list of its own: not the default list, and not the list of another. *)
Definition separate (d : loc) (h : heap) (insts : list loc) : Prop :=
  h !! d = Some (PyList [])
  /\ (forall s, s ∈ insts ->
        exists l items, h !! s = Some (PyToDoState (mkToDoState l))
                        /\ h !! l = Some (PyList items) /\ l <> d)
  /\ (forall a b l, a ∈ insts -> b ∈ insts ->
        h !! a = Some (PyToDoState (mkToDoState l)) ->
        h !! b = Some (PyToDoState (mkToDoState l)) -> a = b).

(** ** A small assistant to run the handler on *)

(** It counts its calls in the world, refuses an empty update, and
    otherwise files the update as a new to-do in the list it was given. *)
Definition toy_construct (description : string) (items : list ToDo) (w : nat)
    : option string * nat :=
  (None, S w).

Definition toy_respond (description : string) (items : list ToDo)
    (update : string) (w : nat) : AIReply string * nat :=
  if String.eqb update ""
  then (mkReply items true (inl "empty update"), S w)
  else (mkReply (items ++ [mkToDo update update None false]) true
          (inr ("Added: " +:+ update)), S w).

Definition toy_gateway (f : callable) (req : request)
    : ST (machine nat) (exn string) http_response :=
  mret Http404.

(** The globals and the server as the cells leave them. *)
Definition toy_globals : globals := mkGlobals [mkRoute "/" [GET] Fn_run] 0 2.

Definition toy_server : machine nat :=
  mkMachine [PyList []; PyList []; PyToDoState (mkToDoState 1)] 0 [].

(** The request the notebook sends through FastAPI's test client. *)
Definition craig_request : request :=
  mkRequest GET "/"
    [("update", "Remind me I have an appointment with Craig tomorrow at 9AM")]
    None.

Definition toy_after_one : machine nat :=
  (handle toy_construct toy_respond toy_gateway toy_globals craig_request
     toy_server).2.

(** A server that holds a client's state, with the example's to-do, at
    address 4. *)
Definition toy_with_state : machine nat :=
  mkMachine [PyList []; PyList []; PyToDoState (mkToDoState 1);
             PyList [example_item]; PyToDoState (mkToDoState 3)] 0 [].

(** The to-do the toy assistant files for the notebook's request. *)
Definition craig_reminder : ToDo :=
  mkToDo "Remind me I have an appointment with Craig tomorrow at 9AM"
    "Remind me I have an appointment with Craig tomorrow at 9AM" None false.

(** An assistant that leaves the to-dos as they are, in a new state
    object. *)
Definition echo_respond (description : string) (items : list ToDo)
    (update : string) (w : nat) : AIReply string * nat :=
  (mkReply items false (inr "Nothing to do."), S w).

(** ** The state a client carries *)

(** The ["state"] entry of a response: what a client keeps and sends back
    as the body of its next request. *)
Definition state_payload (items : list ToDo) : value :=
  VDict [("todos", VList (ToDo_dump <$> items))].

(** A request that carries the example's to-do as its state. *)
Definition example_request : request :=
  mkRequest GET "/" [("update", "What is on my list?")]
    (Some (state_payload [example_item])).

(** A to-do with a due date, and one a [datetime] object can hold. *)
Definition dated (t : ToDo) : bool :=
  match due_date t with
  | Some d => valid_datetime d
  | None => false
  end.


(** * Properties *)

(** ** Records and validation *)

Lemma ToDo_init_typed (kwargs : list (string * value)) :
  has_type class_ToDo (VDict kwargs) = true ->
  exists t, ToDo_init kwargs = Ok t.
Proof.
  unfold ToDo_init, required, defaulted. simpl.
  destruct (assoc "title" kwargs) as [[]|]; simpl; try discriminate.
  destruct (assoc "description" kwargs) as [[]|]; simpl; try discriminate.
  destruct (assoc "due_date" kwargs) as [[]|]; simpl; try discriminate.
  all: destruct (assoc "done" kwargs) as [[]|]; simpl; try discriminate.
  all: try match goal with
           | |- context [parse_datetime ?iso] => destruct (parse_datetime iso)
           end; simpl; try discriminate; eauto.
Qed.

Lemma validate_all_typed (items : list value) :
  forallb (has_type class_ToDo) items = true ->
  exists ts, validate_all (ToDo_validate "todos") items = Ok ts.
Proof.
  induction items as [|v items IH]; [by eexists|].
  cbn [validate_all forallb]. intros [Hv Hrest]%andb_true_iff.
  destruct (IH Hrest) as [ts ->].
  destruct v; try discriminate.
  destruct (ToDo_init_typed _ Hv) as [t Ht].
  cbn [ToDo_validate]. rewrite Ht. by eexists.
Qed.

Lemma Person_init_typed (kwargs : list (string * value)) :
  has_type class_Person (VDict kwargs) = true ->
  exists p, Person_init kwargs = Ok p.
Proof.
  unfold Person_init, required. simpl.
  destruct (assoc "first_name" kwargs) as [[]|]; simpl; try discriminate.
  destruct (assoc "last_name" kwargs) as [[]|]; simpl; try discriminate.
  eauto.
Qed.



(** ** Heap steps *)

Lemma lookup_new (h : heap) (o : object) : (h ++ [o]) !! length h = Some o.
Proof. by apply list_lookup_middle. Qed.

Lemma lookup_old (h ext : heap) (l : loc) :
  l < length h -> (h ++ ext) !! l = h !! l.
Proof. intros Hl. by apply lookup_app_l. Qed.

Lemma lookup_valid (h : heap) (l : loc) (o : object) :
  h !! l = Some o -> l < length h.
Proof. apply lookup_lt_Some. Qed.

Lemma read_state_fresh (h : heap) (items : list ToDo) :
  read_state (S (length h))
    (h ++ [PyList items; PyToDoState (mkToDoState (length h))]) = Some items.
Proof.
  unfold read_state.
  rewrite (lookup_app_r h) by lia.
  replace (S (length h) - length h) with 1 by lia. cbn.
  rewrite (list_lookup_middle h _ _ (length h)) by reflexivity. done.
Qed.

Lemma new_ToDoState_spec (items : list ToDo) (h : heap) :
  new_ToDoState items h
  = (Return (S (length h)),
     h ++ [PyList items; PyToDoState (mkToDoState (length h))]).
Proof.
  unfold new_ToDoState, mbind, ST_bind, new. cbn.
  rewrite length_app, <- app_assoc. cbn. rewrite Nat.add_1_r. reflexivity.
Qed.

Lemma ToDoState_init_given (d : loc) (kwargs : list (string * value))
    (v : value) (items : list ToDo) (h : heap) :
  assoc "todos" kwargs = Some v ->
  validate_todos "todos" v = Ok items ->
  ToDoState_init d kwargs h
  = (Return (S (length h)),
     h ++ [PyList items; PyToDoState (mkToDoState (length h))]).
Proof.
  intros Hk Hv. unfold ToDoState_init. rewrite Hk, Hv.
  unfold mbind, ST_bind, check, mret, ST_ret. apply new_ToDoState_spec.
Qed.

Lemma ToDoState_init_default (d : loc) (kwargs : list (string * value))
    (items : list ToDo) (h : heap) :
  assoc "todos" kwargs = None ->
  h !! d = Some (PyList items) ->
  ToDoState_init d kwargs h
  = (Return (S (length h)),
     h ++ [PyList items; PyToDoState (mkToDoState (length h))]).
Proof.
  intros Hk Hd. unfold ToDoState_init. rewrite Hk.
  unfold mbind, ST_bind, get_list. rewrite Hd. apply new_ToDoState_spec.
Qed.

Lemma ToDoState_validate_typed (d : loc) (field : string) (v : value)
    (dflt : list ToDo) (h : heap) :
  h !! d = Some (PyList dflt) ->
  has_type class_ToDoState v = true ->
  exists items,
    ToDoState_validate d field v h
    = (Return (S (length h)),
       h ++ [PyList items; PyToDoState (mkToDoState (length h))]).
Proof.
  intros Hd. destruct v as [| | | | |?|kwargs]; try discriminate.
  cbn [ToDoState_validate has_type class_ToDoState].
  destruct (assoc "todos" kwargs) as [v|] eqn:Hk.
  - rewrite andb_true_r. intros Hv.
    destruct v; try discriminate. cbn [has_type] in Hv.
    destruct (validate_all_typed _ Hv) as [ts Hts].
    exists ts. by apply ToDoState_init_given with (VList items).
  - intros _. exists dflt. by apply ToDoState_init_default.
Qed.

Lemma ToDoResponse_validate_typed (d : loc) (v : value)
    (dflt : list ToDo) (h : heap) :
  h !! d = Some (PyList dflt) ->
  has_type class_ToDoResponse v = true ->
  exists c items,
    ToDoResponse_validate d v h
    = (Return (mkToDoResponse c (S (length h))),
       h ++ [PyList items; PyToDoState (mkToDoState (length h))]).
Proof.
  intros Hd. destruct v as [| | | | |?|kwargs]; try discriminate.
  cbn [ToDoResponse_validate has_type class_ToDoResponse].
  fold class_ToDoState. unfold required.
  destruct (assoc "content" kwargs) as [[| | |c| | |]|]; try discriminate.
  cbn [validate_str check has_type andb].
  destruct (assoc "state" kwargs) as [sv|]; [|discriminate].
  rewrite andb_true_r. intros Hsv.
  destruct (ToDoState_validate_typed d "state" sv dflt h Hd Hsv) as [items Hs].
  exists c, items.
  unfold mbind, ST_bind, mret, ST_ret. by rewrite Hs.
Qed.

Lemma lookup_fresh_list (h : heap) (a b : object) :
  (h ++ [a; b]) !! length h = Some a.
Proof. by apply list_lookup_middle. Qed.

Lemma lookup_fresh_state (h : heap) (a b : object) :
  (h ++ [a; b]) !! S (length h) = Some b.
Proof.
  rewrite (lookup_app_r h) by lia.
  replace (S (length h) - length h) with 1 by lia. reflexivity.
Qed.

Lemma ToDo_kwargs_roundtrip (t : ToDo) : ToDo_init (ToDo_kwargs t) = Ok t.
Proof. destruct t as [t d [dd|] dn]; reflexivity. Qed.

Lemma validate_todos_kwargs (items : list ToDo) :
  validate_todos "todos" (VList ((fun t => VDict (ToDo_kwargs t)) <$> items))
  = Ok items.
Proof.
  cbn [validate_todos].
  induction items as [|t items IH]; [reflexivity|].
  cbn [fmap list_fmap validate_all ToDo_validate].
  rewrite ToDo_kwargs_roundtrip. cbn [mbind result_bind].
  change (list_fmap _ _ ?f items) with (f <$> items).
  rewrite IH. reflexivity.
Qed.

Lemma ToDo_init_fields (kw kw' : list (string * value)) :
  (forall f, f ∈ (fst <$> class_fields class_ToDo) -> assoc f kw = assoc f kw') ->
  ToDo_init kw = ToDo_init kw'.
Proof.
  intros Hsame. unfold ToDo_init, required, defaulted.
  rewrite (Hsame "title"), (Hsame "description"), (Hsame "due_date"),
    (Hsame "done"); [reflexivity|..];
    repeat first [apply list_elem_of_here | apply list_elem_of_further].
Qed.

Lemma Person_init_fields (kw kw' : list (string * value)) :
  (forall f, f ∈ (fst <$> class_fields class_Person) -> assoc f kw = assoc f kw') ->
  Person_init kw = Person_init kw'.
Proof.
  intros Hsame. unfold Person_init, required.
  rewrite (Hsame "first_name"), (Hsame "last_name"); [reflexivity|..];
    repeat first [apply list_elem_of_here | apply list_elem_of_further].
Qed.

Lemma ToDoState_init_fields (d : loc) (h : heap) (kw kw' : list (string * value)) :
  (forall f, f ∈ (fst <$> class_fields class_ToDoState) -> assoc f kw = assoc f kw') ->
  ToDoState_init d kw h = ToDoState_init d kw' h.
Proof.
  intros Hsame. unfold ToDoState_init.
  rewrite (Hsame "todos"); [reflexivity|apply list_elem_of_here].
Qed.

Lemma ToDoResponse_validate_fields (d : loc) (h : heap)
    (kw kw' : list (string * value)) :
  (forall f, f ∈ (fst <$> class_fields class_ToDoResponse) ->
     assoc f kw = assoc f kw') ->
  ToDoResponse_validate d (VDict kw) h = ToDoResponse_validate d (VDict kw') h.
Proof.
  intros Hsame. unfold ToDoResponse_validate, required.
  rewrite (Hsame "content"), (Hsame "state"); [reflexivity|..];
    repeat first [apply list_elem_of_here | apply list_elem_of_further].
Qed.

(** C3 (amended): the to-do example declares exactly three record types,
    [ToDo] (title, description, due date, completion flag), [ToDoState]
    (an ordered list of [ToDo]) and [ToDoResponse] (text content and a
    [ToDoState]); the notebook declares one more, [Person], in the gateway
    example. Building a record reads the declared fields and nothing
    else, and asks nothing beyond the field types: input in which every
    given field has the type of its annotation, and every field left out
    has a default, is never refused. Every [ToDo] and every list of them
    is reached that way, the list kept in its order. *)
Theorem data_model :
  class_name <$> todo_models = ["ToDo"; "ToDoState"; "ToDoResponse"]
  /\ class_name <$> notebook_models = "Person" :: (class_name <$> todo_models)
  /\ (forall kw kw',
        (forall f, f ∈ (fst <$> class_fields class_ToDo) ->
           assoc f kw = assoc f kw') ->
        ToDo_init kw = ToDo_init kw')
  /\ (forall d h kw kw',
        (forall f, f ∈ (fst <$> class_fields class_ToDoState) ->
           assoc f kw = assoc f kw') ->
        ToDoState_init d kw h = ToDoState_init d kw' h)
  /\ (forall d h kw kw',
        (forall f, f ∈ (fst <$> class_fields class_ToDoResponse) ->
           assoc f kw = assoc f kw') ->
        ToDoResponse_validate d (VDict kw) h = ToDoResponse_validate d (VDict kw') h)
  /\ (forall kw kw',
        (forall f, f ∈ (fst <$> class_fields class_Person) ->
           assoc f kw = assoc f kw') ->
        Person_init kw = Person_init kw')
  /\ (forall kw,
        has_type class_ToDo (VDict kw) = true -> exists t, ToDo_init kw = Ok t)
  /\ (forall kw,
        has_type class_Person (VDict kw) = true -> exists p, Person_init kw = Ok p)
  /\ (forall t, ToDo_init (ToDo_kwargs t) = Ok t)
  /\ (forall items,
        validate_todos "todos" (VList ((fun t => VDict (ToDo_kwargs t)) <$> items))
        = Ok items)
  /\ (forall d dflt h v,
        h !! d = Some (PyList dflt) ->
        has_type class_ToDoState v = true ->
        exists s h' items,
          ToDoState_validate d "state" v h = (Return s, h')
          /\ read_state s h' = Some items)
  /\ (forall d dflt h v,
        h !! d = Some (PyList dflt) ->
        has_type class_ToDoResponse v = true ->
        exists r h' items,
          ToDoResponse_validate d v h = (Return r, h')
          /\ read_state (state r) h' = Some items).
Proof.
  split; [reflexivity|]. split; [reflexivity|].
  split; [exact ToDo_init_fields|].
  split; [intros d h; exact (ToDoState_init_fields d h)|].
  split; [intros d h; exact (ToDoResponse_validate_fields d h)|].
  split; [exact Person_init_fields|].
  split; [exact ToDo_init_typed|].
  split; [exact Person_init_typed|].
  split; [exact ToDo_kwargs_roundtrip|].
  split; [exact validate_todos_kwargs|].
  split.
  - intros d dflt h v Hd Hv.
    destruct (ToDoState_validate_typed d "state" v dflt h Hd Hv) as [items Hs].
    eexists _, _, items. split; [exact Hs|]. apply read_state_fresh.
  - intros d dflt h v Hd Hv.
    destruct (ToDoResponse_validate_typed d v dflt h Hd Hv) as (c & items & Hr).
    eexists _, _, items. split; [exact Hr|]. apply read_state_fresh.
Qed.

Lemma data_model_witness :
  [PyList []] !! 0 = Some (PyList [])
  /\ has_type class_ToDoResponse example_response = true
  /\ exists r h' items,
      ToDoResponse_validate 0 example_response [PyList []] = (Return r, h')
      /\ read_state (state r) h' = Some items.
Proof.
  split; [reflexivity|]. split; [reflexivity|].
  pose proof data_model as Hmodel.
  repeat (destruct Hmodel as [_ Hmodel]).
  exact (Hmodel 0 [] [PyList []] example_response eq_refl eq_refl).
Defined.

(** C3 (as first stated): the notebook's record types are not only the
    three of the to-do example; [Person] is a fourth. *)
Lemma notebook_declares_Person :
  (class_Person ∈ notebook_models)
  /\ (class_name class_Person ∉ ["ToDo"; "ToDoState"; "ToDoResponse"])
  /\ length notebook_models = 4.
Proof.
  split; [|split; [|reflexivity]].
  - apply list_elem_of_here.
  - intros Hin.
    repeat (apply elem_of_cons in Hin as [Hin|Hin]; [discriminate Hin|]).
    by apply elem_of_nil in Hin.
Qed.

(** C6: the JSON document printed under the test request parses as a
    [ToDoResponse]; the instance holds the one to-do of the example, and
    serialising it gives the document back. *)
Theorem example_response_conforms (d : loc) (h : heap) :
  has_type class_ToDoResponse example_response = true
  /\ exists r h',
      ToDoResponse_validate d example_response h = (Return r, h')
      /\ content r = "You have an appointment with Craig tomorrow at 9AM."
      /\ read_state (state r) h' = Some [example_item]
      /\ ToDoResponse_dump r h' = (Return example_response, h').
Proof.
  split; [reflexivity|].
  eexists _, _. split.
  - unfold ToDoResponse_validate, example_response, required.
    cbn [assoc String.eqb Ascii.eqb Bool.eqb validate_str check].
    unfold mbind at 1. unfold ST_bind at 1. cbn [mret ST_ret].
    cbn [ToDoState_validate].
    unfold mbind, ST_bind.
    erewrite ToDoState_init_given; [reflexivity|reflexivity|].
    vm_compute. reflexivity.
  - cbn [content state]. split; [reflexivity|]. split.
    + apply read_state_fresh.
    + unfold ToDoResponse_dump, ToDoState_dump, mbind, ST_bind, get_todos, get_list.
      cbn [state]. rewrite lookup_fresh_state. cbn [todos].
      rewrite lookup_fresh_list. reflexivity.
Qed.

(** ** Routes *)



(** ** The handler *)

Section AI_properties.

Variable World : Type.
Variable AIExn : Type.
Variable ai_construct : string -> list ToDo -> World -> option AIExn * World.
Variable ai_respond : string -> list ToDo -> string -> World -> AIReply AIExn * World.
Variable gateway : callable -> request -> ST (machine World) (exn AIExn) http_response.

Local Abbreviation run' := (run ai_construct ai_respond).
Local Abbreviation handle' := (handle ai_construct ai_respond gateway).
Local Abbreviation serving' := (serving ai_construct ai_respond gateway).
Local Abbreviation answer' := (answer ai_construct ai_respond).
Local Abbreviation behaviour' := (behaviour ai_construct ai_respond).

Lemma AIApplication_new_eval (d : string) (s l : loc) (items : list ToDo)
    (h : heap) (w : World) (cs : list ai_event) :
  h !! s = Some (PyToDoState (mkToDoState l)) ->
  h !! l = Some (PyList items) ->
  AIApplication_new ai_construct s d (mkMachine h w cs)
  = (match (ai_construct d items w).1 with
     | Some e => Raise (AIError e)
     | None => Return (mkAIApplication s d)
     end,
     mkMachine h (ai_construct d items w).2 (cs ++ [Constructed d items])).
Proof.
  intros Hs Hl.
  unfold AIApplication_new, mbind, ST_bind, lift, get_todos, get_list, ask.
  cbn [mem world calls todos]. rewrite Hs.
  cbn [mem world calls todos]. rewrite Hl.
  cbn [mem world calls todos].
  destruct (ai_construct d items w) as [[e|] w1]; reflexivity.
Qed.

Lemma AIApplication_call_eval (todo : AIApplication) (update : string)
    (l : loc) (items : list ToDo) (h : heap) (w : World) (cs : list ai_event) :
  h !! app_state todo = Some (PyToDoState (mkToDoState l)) ->
  h !! l = Some (PyList items) ->
  AIApplication_call ai_respond todo update (mkMachine h w cs)
  = (match reply_result (ai_respond (app_description todo) items update w).1 with
     | inl e => Raise (AIError e)
     | inr c =>
         Return (mkAIApplication
                   (state_after (ai_respond (app_description todo) items update w).1
                      (app_state todo) h)
                   (app_description todo), mkAIResponse c)
     end,
     mkMachine
       (heap_after (ai_respond (app_description todo) items update w).1 l h)
       (ai_respond (app_description todo) items update w).2
       (cs ++ [Called (app_description todo) items update])).
Proof.
  intros Hs Hl.
  unfold AIApplication_call, mbind, ST_bind, lift, get_todos, get_list, ask.
  cbn [mem world calls todos]. rewrite Hs.
  cbn [mem world calls todos]. rewrite Hl.
  cbn [mem world calls todos].
  destruct (ai_respond (app_description todo) items update w) as [reply w2].
  cbn [fst snd mem world calls].
  unfold heap_after, state_after, set_list, mret, ST_ret, raise.
  destruct (reply_in_place reply).
  - cbn [mem world calls]. rewrite Hl. cbn [mem world calls].
    destruct todo. destruct (reply_result reply); reflexivity.
  - cbn [mem world calls]. rewrite new_ToDoState_spec. cbn [mem world calls].
    destruct (reply_result reply); reflexivity.
Qed.

Lemma lookup_state_after (reply : AIReply AIExn) (s l : loc)
    (items : list ToDo) (h : heap) :
  h !! s = Some (PyToDoState (mkToDoState l)) ->
  h !! l = Some (PyList items) ->
  exists l',
    heap_after reply l h !! state_after reply s h
    = Some (PyToDoState (mkToDoState l'))
    /\ heap_after reply l h !! l' = Some (PyList (reply_todos reply)).
Proof.
  intros Hs Hl. unfold heap_after, state_after.
  destruct (reply_in_place reply).
  - exists l. split.
    + rewrite list_lookup_insert_ne by (intros ->; congruence). exact Hs.
    + apply list_lookup_insert_eq. by eapply lookup_valid.
  - exists (length h). split.
    + apply lookup_fresh_state.
    + apply lookup_fresh_list.
Qed.

Lemma read_state_lookup (s : loc) (h : heap) (items : list ToDo) :
  read_state s h = Some items <->
  exists l, h !! s = Some (PyToDoState (mkToDoState l))
            /\ h !! l = Some (PyList items).
Proof.
  unfold read_state. split.
  - destruct (h !! s) as [[|[l]]|] eqn:Hs; try discriminate.
    cbn [todos]. destruct (h !! l) as [[its|]|] eqn:Hl; try discriminate.
    intros [= ->]. eauto.
  - intros (l & -> & Hl). cbn [todos]. by rewrite Hl.
Qed.

Lemma read_state_after (reply : AIReply AIExn) (s l : loc)
    (items : list ToDo) (h : heap) :
  h !! s = Some (PyToDoState (mkToDoState l)) ->
  h !! l = Some (PyList items) ->
  read_state (state_after reply s h) (heap_after reply l h)
  = Some (reply_todos reply).
Proof.
  intros Hs Hl. apply read_state_lookup.
  exact (lookup_state_after reply s l items h Hs Hl).
Qed.

(** A call of the application leaves every object in place but the list
    of the state it was given. *)
Lemma heap_after_frame (reply : AIReply AIExn) (l l0 : loc) (h : heap) :
  l0 < length h -> l0 <> l ->
  heap_after reply l h !! l0 = h !! l0.
Proof.
  intros Hlt Hne. unfold heap_after. destruct (reply_in_place reply).
  - by apply list_lookup_insert_ne.
  - by apply lookup_old.
Qed.

Lemma heap_after_length (reply : AIReply AIExn) (l : loc) (h : heap) :
  length h <= length (heap_after reply l h).
Proof.
  unfold heap_after. destruct (reply_in_place reply).
  - by rewrite length_insert.
  - rewrite length_app. lia.
Qed.

Lemma run_bind (update : string) (s : loc) (m : machine World) :
  run' update s m
  = match AIApplication_new ai_construct s run_description m with
    | (Return todo0, m1) =>
        match AIApplication_call ai_respond todo0 update m1 with
        | (Return (todo, response), m2) =>
            lift (ToDoResponse_init (response_content response) (app_state todo)) m2
        | (Raise e, m2) => (Raise e, m2)
        | (Fault, m2) => (Fault, m2)
        end
    | (Raise e, m1) => (Raise e, m1)
    | (Fault, m1) => (Fault, m1)
    end.
Proof.
  unfold run. unfold mbind at 1. unfold ST_bind at 1.
  change ("A simple to-do tracker. Users will give instructions "
          +:+ "to add, remove, and update their to-dos.") with run_description.
  destruct (AIApplication_new ai_construct s run_description m) as [[todo0| |] m1];
    try reflexivity.
  unfold mbind, ST_bind.
  destruct (AIApplication_call ai_respond todo0 update m1) as [[[todo response]| |] m2];
    reflexivity.
Qed.

Lemma run_eval (update : string) (s l : loc) (items : list ToDo)
    (h : heap) (w : World) (cs : list ai_event) :
  h !! s = Some (PyToDoState (mkToDoState l)) ->
  h !! l = Some (PyList items) ->
  run' update s (mkMachine h w cs)
  = let '(refusal, w1) := ai_construct run_description items w in
    let cs1 := cs ++ [Constructed run_description items] in
    match refusal with
    | Some e => (Raise (AIError e), mkMachine h w1 cs1)
    | None =>
        let '(reply, w2) := ai_respond run_description items update w1 in
        let m' := mkMachine (heap_after reply l h) w2
                    (cs1 ++ [Called run_description items update]) in
        match reply_result reply with
        | inl e => (Raise (AIError e), m')
        | inr c => (Return (mkToDoResponse c (state_after reply s h)), m')
        end
    end.
Proof.
  intros Hs Hl.
  unfold run, AIApplication_new, AIApplication_call.
  unfold mbind, ST_bind, lift, get_todos, get_list, ask.
  change ("A simple to-do tracker. Users will give instructions "
          +:+ "to add, remove, and update their to-dos.") with run_description.
  cbn [mem world calls todos]. rewrite Hs.
  cbn [mem world calls todos]. rewrite Hl.
  cbn [mem world calls todos].
  destruct (ai_construct run_description items w) as [[e|] w1]; [reflexivity|].
  cbn [mret ST_ret app_state app_description mem world calls todos].
  rewrite Hs. cbn [mem world calls todos]. rewrite Hl.
  cbn [mem world calls todos].
  destruct (ai_respond run_description items update w1) as [reply w2].
  cbn [mem world calls todos].
  assert (Hne : l <> s) by (intros ->; congruence).
  unfold heap_after, state_after, set_list, ToDoResponse_init, get_todos.
  unfold mbind, ST_bind, mret, ST_ret, raise.
  destruct (reply_in_place reply).
  - cbn [mem world calls]. rewrite Hl. cbn [mem world calls].
    destruct (reply_result reply) as [e|c]; [reflexivity|].
    cbn [mem world calls response_content app_state].
    rewrite list_lookup_insert_ne by exact Hne. rewrite Hs. reflexivity.
  - cbn [mem world calls]. rewrite new_ToDoState_spec. cbn [mem world calls].
    destruct (reply_result reply) as [e|c]; [reflexivity|].
    cbn [mem world calls response_content app_state].
    rewrite lookup_fresh_state. reflexivity.
Qed.

Lemma ToDoResponse_init_lift (c : string) (s : loc) (m : machine World) :
  lift (AIExn := AIExn) (ToDoResponse_init c s) m
  = (match mem m !! s with
     | Some (PyToDoState _) => Return (mkToDoResponse c s)
     | _ => Fault
     end, m).
Proof.
  destruct m as [h w cs].
  unfold lift, ToDoResponse_init, mbind, ST_bind, get_todos. cbn [mem world calls].
  destruct (h !! s) as [[|]|]; reflexivity.
Qed.

(** C1: [run] builds an [AIApplication] from the state it is given and
    the fixed description, calls it once with the update, and returns a
    [ToDoResponse] that carries the content of the application's response
    and the state the application has after the call. *)
Theorem run_forwards (update : string) (s : loc) (items : list ToDo)
    (m m1 m2 : machine World) (todo0 todo : AIApplication)
    (response : AIResponse) :
  read_state s (mem m) = Some items ->
  AIApplication_new ai_construct s run_description m = (Return todo0, m1) ->
  AIApplication_call ai_respond todo0 update m1 = (Return (todo, response), m2) ->
  run' update s m
  = (Return (mkToDoResponse (response_content response) (app_state todo)), m2)
  /\ todo0 = mkAIApplication s run_description
  /\ calls m2 = calls m ++ [Constructed run_description items;
                            Called run_description items update]
  /\ (let reply := (ai_respond run_description items update (world m1)).1 in
      reply_result reply = inr (response_content response)
      /\ read_state (app_state todo) (mem m2) = Some (reply_todos reply))
  /\ world m2 = (ai_respond run_description items update
                   (ai_construct run_description items (world m)).2).2.
Proof.
  intros Hread Hnew Hcall. destruct m as [h w cs].
  apply read_state_lookup in Hread as (l & Hs & Hl). cbn [mem] in Hs, Hl.
  rewrite run_bind, Hnew, Hcall.
  rewrite (AIApplication_new_eval _ _ _ _ _ _ _ Hs Hl) in Hnew.
  destruct (ai_construct run_description items w) as [[e|] w1] eqn:Hc;
    cbn [fst snd] in Hnew; [discriminate|].
  injection Hnew as <- <-.
  rewrite (AIApplication_call_eval (mkAIApplication s run_description)
             update l items h _ _ Hs Hl) in Hcall.
  cbn [app_description app_state world mem calls fst snd] in *.
  destruct (ai_respond run_description items update w1) as [reply w2] eqn:Hr.
  cbn [fst snd] in *.
  destruct (reply_result reply) as [e|c] eqn:Hres; [discriminate|].
  injection Hcall as <- <- <-.
  destruct (lookup_state_after reply s l items h Hs Hl) as (l' & Hs' & Hl').
  rewrite ToDoResponse_init_lift. cbn [mem app_state response_content calls world].
  rewrite Hs'.
  repeat split.
  - by rewrite <- app_assoc.
  - apply read_state_lookup. eauto.
  - rewrite Hc. cbn [snd]. by rewrite Hr.
Qed.

(** C5: [run] handles no exception. On a well-formed state it raises
    exactly when the construction or the call of the application raises,
    with the same exception and in the state the application left; what
    it raises is what the assistant raised. *)
Theorem run_raises_iff (update : string) (s : loc) (items : list ToDo)
    (m m' : machine World) (x : exn AIExn) :
  read_state s (mem m) = Some items ->
  (run' update s m = (Raise x, m') <->
   AIApplication_new ai_construct s run_description m = (Raise x, m')
   \/ exists todo0 m1,
        AIApplication_new ai_construct s run_description m = (Return todo0, m1)
        /\ AIApplication_call ai_respond todo0 update m1 = (Raise x, m'))
  /\ ((run' update s m).1 = Raise x <->
      exists e, x = AIError e
        /\ let asked := ai_construct run_description items (world m) in
           asked.1 = Some e
           \/ (asked.1 = None
               /\ reply_result (ai_respond run_description items update asked.2).1
                  = inl e))
  /\ (run' update s m).1 <> Fault.
Proof.
  intros Hread. destruct m as [h w cs].
  apply read_state_lookup in Hread as (l & Hs & Hl). cbn [mem] in Hs, Hl.
  split; [|split].
  - rewrite run_bind.
    destruct (AIApplication_new ai_construct s run_description
                (mkMachine h w cs)) as [[todo0| |] m1] eqn:Hnew.
    + destruct (AIApplication_call ai_respond todo0 update m1)
        as [[[todo response]| |] m2] eqn:Hcall.
      * rewrite ToDoResponse_init_lift. split.
        -- destruct (mem m2 !! app_state todo) as [[|]|]; discriminate.
        -- intros [Hx | (t & m3 & [= <- <-] & Hx)]; [discriminate|].
           rewrite Hcall in Hx. discriminate.
      * split; [intros [= <- <-]; right; eauto|].
        intros [Hx | (t & m3 & [= <- <-] & Hx)]; [discriminate|].
        rewrite Hcall in Hx. by injection Hx as <- <-.
      * split; [discriminate|].
        intros [Hx | (t & m3 & [= <- <-] & Hx)]; [discriminate|].
        rewrite Hcall in Hx. discriminate.
    + split; [intros [= <- <-]; by left|].
      intros [Hx | (t & m3 & Hx & _)]; [by injection Hx as <- <-|discriminate].
    + split; [discriminate|].
      intros [Hx | (t & m3 & Hx & _)]; discriminate.
  - rewrite (run_eval _ _ _ _ _ _ _ Hs Hl). cbn [world].
    destruct (ai_construct run_description items w) as [[e|] w1].
    + cbn [fst snd]. split.
      * intros [= <-]. exists e. split; [reflexivity|]. by left.
      * intros (e' & -> & [[= ->] | [? _]]); [reflexivity|discriminate].
    + cbn [fst snd].
      destruct (ai_respond run_description items update w1) as [reply w2].
      cbn [fst snd]. destruct (reply_result reply) as [e|c]; cbn [fst]; split.
      * intros [= <-]. exists e. split; [reflexivity|]. by right.
      * intros (e' & -> & [? | [_ [= ->]]]); [discriminate|reflexivity].
      * discriminate.
      * intros (e' & -> & [? | [_ ?]]); discriminate.
  - rewrite (run_eval _ _ _ _ _ _ _ Hs Hl).
    destruct (ai_construct run_description items w) as [[e|] w1]; [discriminate|].
    destruct (ai_respond run_description items update w1) as [reply w2].
    destruct (reply_result reply); discriminate.
Qed.

(** ** Requests *)

Lemma ToDoState_validate_eval (d : loc) (field : string) (v : value)
    (dflt : list ToDo) (h : heap) :
  h !! d = Some (PyList dflt) ->
  ToDoState_validate d field v h
  = match payload_todos dflt field v with
    | Ok items =>
        (Return (S (length h)),
         h ++ [PyList items; PyToDoState (mkToDoState (length h))])
    | Err e => (Raise e, h)
    | Undecided => (Fault, h)
    end.
Proof.
  intros Hd. destruct v as [| | | | |?|kwargs]; try reflexivity.
  cbn [ToDoState_validate payload_todos].
  destruct (assoc "todos" kwargs) as [tv|] eqn:Hk.
  - destruct (validate_todos "todos" tv) as [items|e|] eqn:Hv.
    + by apply ToDoState_init_given with tv.
    + unfold ToDoState_init. rewrite Hk, Hv. reflexivity.
    + unfold ToDoState_init. rewrite Hk, Hv. reflexivity.
  - by apply ToDoState_init_default.
Qed.

Lemma deepcopy_eval (s : loc) (items : list ToDo) (h : heap) :
  read_state s h = Some items ->
  deepcopy s h
  = (Return (S (length h)),
     h ++ [PyList items; PyToDoState (mkToDoState (length h))]).
Proof.
  intros (l & Hs & Hl)%read_state_lookup.
  unfold deepcopy, mbind, ST_bind, get_todos, get_list.
  rewrite Hs. cbn [todos]. rewrite Hl. apply new_ToDoState_spec.
Qed.

Lemma ToDoResponse_dump_lift (r : ToDoResponse) (items : list ToDo)
    (m : machine World) :
  read_state (state r) (mem m) = Some items ->
  lift (AIExn := AIExn) (ToDoResponse_dump r) m
  = (Return (response_body (content r) items), m).
Proof.
  intros (l & Hs & Hl)%read_state_lookup. destruct m as [h w cs].
  cbn [mem] in Hs, Hl.
  unfold lift, ToDoResponse_dump, ToDoState_dump, mbind, ST_bind,
    get_todos, get_list.
  cbn [mem world calls]. rewrite Hs. cbn [todos]. rewrite Hl. reflexivity.
Qed.

Lemma serve_run_eval (update : string) (s l : loc) (items : list ToDo)
    (h : heap) (w : World) (cs : list ai_event) :
  h !! s = Some (PyToDoState (mkToDoState l)) ->
  h !! l = Some (PyList items) ->
  serve_run ai_construct ai_respond update s (mkMachine h w cs)
  = let '(refusal, w1) := ai_construct run_description items w in
    let cs1 := cs ++ [Constructed run_description items] in
    match refusal with
    | Some e => (Raise (AIError e), mkMachine h w1 cs1)
    | None =>
        let '(reply, w2) := ai_respond run_description items update w1 in
        (match reply_result reply with
         | inl e => Raise (AIError e)
         | inr c => Return (Http200 (response_body c (reply_todos reply)))
         end,
         mkMachine (heap_after reply l h) w2
           (cs1 ++ [Called run_description items update]))
    end.
Proof.
  intros Hs Hl. unfold serve_run. unfold mbind at 1. unfold ST_bind at 1.
  rewrite (run_eval _ _ _ _ _ _ _ Hs Hl).
  destruct (ai_construct run_description items w) as [[e|] w1]; [reflexivity|].
  destruct (ai_respond run_description items update w1) as [reply w2].
  destruct (reply_result reply) as [e|c]; [reflexivity|].
  unfold mbind, ST_bind.
  rewrite (ToDoResponse_dump_lift _ (reply_todos reply)).
  - reflexivity.
  - cbn [state mem]. by apply read_state_after with items.
Qed.

Lemma endpoint_run_eval (g : globals) (req : request)
    (h : heap) (w : World) (cs : list ai_event) :
  pristine g h ->
  endpoint_run ai_construct ai_respond g req (mkMachine h w cs)
  = match assoc "update" (req_query req) with
    | None => (Return (Http422 (Missing "update")), mkMachine h w cs)
    | Some update =>
        match request_todos req with
        | Err e => (Return (Http422 e), mkMachine h w cs)
        | Ok items =>
            answer' update items (length h)
              (h ++ [PyList items; PyToDoState (mkToDoState (length h))]) w cs
        | Undecided => (Fault, mkMachine h w cs)
        end
    end.
Proof.
  intros (_ & Hd & Hdefault).
  assert (Hnone : forall update,
                  (st ← attempt (deepcopy (run_state_default g));
                   match st with
                   | inl e => mret (Http422 e)
                   | inr state => serve_run ai_construct ai_respond update state
                   end) (mkMachine h w cs)
                  = answer' update [] (length h)
                      (h ++ [PyList []; PyToDoState (mkToDoState (length h))]) w cs).
  { intros update. unfold mbind, ST_bind, attempt. cbn [mem world calls].
    rewrite (deepcopy_eval _ _ _ Hdefault).
    apply serve_run_eval; [apply lookup_fresh_state|apply lookup_fresh_list]. }
  assert (Hsome : forall update v,
             (st ← attempt (ToDoState_validate (ToDoState_todos_default g) "body" v);
              match st with
              | inl e => mret (Http422 e)
              | inr state => serve_run ai_construct ai_respond update state
              end) (mkMachine h w cs)
             = match payload_todos [] "body" v with
               | Err e => (Return (Http422 e), mkMachine h w cs)
               | Ok items =>
                   answer' update items (length h)
                     (h ++ [PyList items; PyToDoState (mkToDoState (length h))]) w cs
               | Undecided => (Fault, mkMachine h w cs)
               end).
  { intros update v. unfold mbind, ST_bind, attempt. cbn [mem world calls].
    rewrite (ToDoState_validate_eval _ _ _ _ _ Hd).
    destruct (payload_todos [] "body" v) as [items|e|]; [|reflexivity..].
    apply serve_run_eval; [apply lookup_fresh_state|apply lookup_fresh_list]. }
  unfold endpoint_run, request_state, request_todos.
  destruct (assoc "update" (req_query req)) as [update|]; [|reflexivity].
  destruct (req_body req) as [v|]; [|apply Hnone].
  destruct v; first [apply Hnone | apply Hsome].
Qed.

Lemma find_route_todo (m : http_method) (path : string) :
  find_route [mkRoute "/" [GET] Fn_run] m path
  = if String.eqb "/" path
    then if http_method_eqb m GET then Matched Fn_run else WrongMethod
    else NoMatch.
Proof.
  cbn [find_route route_path route_methods route_endpoint existsb].
  destruct (String.eqb "/" path); [|reflexivity].
  destruct (http_method_eqb m GET); reflexivity.
Qed.

Lemma handle_eval (g : globals) (req : request) (m : machine World) :
  pristine g (mem m) ->
  handle' g req m
  = if String.eqb "/" (req_path req) && http_method_eqb (req_method req) GET
    then endpoint_run ai_construct ai_respond g req m
    else (Return (static_response req), m).
Proof.
  intros (Happ & _). unfold handle, handle_api, static_response.
  rewrite Happ, find_route_todo.
  destruct (assoc (req_path req) builtin_routes) as [page|] eqn:Hpage.
  - destruct (String.eqb_spec "/" (req_path req)) as [Hroot|_].
    + rewrite <- Hroot in Hpage. discriminate Hpage.
    + destruct (http_method_eqb (req_method req) GET); reflexivity.
  - destruct (String.eqb "/" (req_path req)); [|reflexivity].
    destruct (http_method_eqb (req_method req) GET); reflexivity.
Qed.

Lemma static_response_not_200 (req : request) (body : value) :
  static_response req <> Http200 body.
Proof.
  unfold static_response, not_found.
  repeat match goal with
         | |- context [match ?x with _ => _ end] => destruct x
         end; discriminate.
Qed.

Lemma keeps_refl (h : heap) : keeps h h.
Proof. by intros l _. Qed.

Lemma keeps_read_state (h h' : heap) (s : loc) (items : list ToDo) :
  keeps h h' -> read_state s h = Some items -> read_state s h' = Some items.
Proof.
  intros Hk (l & Hs & Hl)%read_state_lookup. apply read_state_lookup.
  exists l. split.
  - rewrite Hk; [exact Hs|]. by eapply lookup_valid.
  - rewrite Hk; [exact Hl|]. by eapply lookup_valid.
Qed.

Lemma keeps_pristine (g : globals) (h h' : heap) :
  keeps h h' -> pristine g h -> pristine g h'.
Proof.
  intros Hk (Happ & Hd & Hs). split; [exact Happ|]. split.
  - rewrite Hk; [exact Hd|]. by eapply lookup_valid.
  - by apply keeps_read_state with h.
Qed.

Lemma answer_keeps (update : string) (items : list ToDo)
    (h : heap) (a b : object) (w : World) (cs : list ai_event) :
  keeps h (mem (answer' update items (length h) (h ++ [a; b]) w cs).2).
Proof.
  unfold answer.
  destruct (ai_construct run_description items w) as [[e|] w1].
  - cbn [snd mem]. intros l Hl. by apply lookup_old.
  - destruct (ai_respond run_description items update w1) as [reply w2].
    cbn [snd mem]. intros l Hl.
    rewrite heap_after_frame.
    + by apply lookup_old.
    + rewrite length_app. lia.
    + lia.
Qed.

Lemma handle_keeps (g : globals) (req : request) (m : machine World) :
  pristine g (mem m) -> keeps (mem m) (mem (handle' g req m).2).
Proof.
  intros Hp. rewrite (handle_eval _ _ _ Hp).
  destruct (String.eqb "/" (req_path req)
            && http_method_eqb (req_method req) GET); [|apply keeps_refl].
  destruct m as [h w cs]. cbn [mem] in Hp.
  rewrite (endpoint_run_eval _ _ _ _ _ Hp).
  destruct (assoc "update" (req_query req)); [|apply keeps_refl].
  destruct (request_todos req); [|apply keeps_refl..].
  apply answer_keeps.
Qed.

Lemma notebook_boot :
  notebook []
  = (Return (mkGlobals [mkRoute "/" [GET] Fn_run] 0 2),
     [PyList []; PyList []; PyToDoState (mkToDoState 1)]).
Proof. reflexivity. Qed.

(** While serving, no request touches the two defaults. *)
Lemma serving_pristine (g : globals) (m : machine World) :
  serving' g m -> pristine g (mem m).
Proof.
  induction 1 as [h w Hboot|m req out m' _ IH Hstep].
  - rewrite notebook_boot in Hboot. injection Hboot as <- <-.
    repeat split.
  - apply keeps_pristine with (mem m); [|exact IH].
    pose proof (handle_keeps g req m IH) as Hk.
    by rewrite Hstep in Hk.
Qed.

Lemma answer_outcome (update : string) (items : list ToDo) (l : loc)
    (h : heap) (w : World) (cs : list ai_event) :
  (answer' update items l h w cs).1
  = match (behaviour' items update w).1 with
    | Some e => Raise (AIError e)
    | None =>
        match reply_result (behaviour' items update w).2 with
        | inl e => Raise (AIError e)
        | inr c =>
            Return (Http200 (response_body c
                               (reply_todos (behaviour' items update w).2)))
        end
    end.
Proof.
  unfold answer, behaviour.
  destruct (ai_construct run_description items w) as [[e|] w1]; [reflexivity|].
  cbn [fst snd].
  destruct (ai_respond run_description items update w1) as [reply w2].
  reflexivity.
Qed.

Lemma run_observe (update : string) (s : loc) (items : list ToDo)
    (m : machine World) :
  read_state s (mem m) = Some items ->
  observe (run' update s m)
  = match (behaviour' items update (world m)).1 with
    | Some e => Raise (AIError e)
    | None =>
        match reply_result (behaviour' items update (world m)).2 with
        | inl e => Raise (AIError e)
        | inr c =>
            Return (c, Some (reply_todos (behaviour' items update (world m)).2))
        end
    end.
Proof.
  intros (l & Hs & Hl)%read_state_lookup. destruct m as [h w cs].
  cbn [mem world] in *. rewrite (run_eval _ _ _ _ _ _ _ Hs Hl).
  unfold behaviour, observe.
  destruct (ai_construct run_description items w) as [[e|] w1]; [reflexivity|].
  cbn [fst snd].
  destruct (ai_respond run_description items update w1) as [reply w2].
  cbn [fst snd].
  destruct (reply_result reply) as [e|c]; [reflexivity|].
  cbn [fst snd mem content state].
  by rewrite (read_state_after reply s l items h Hs Hl).
Qed.

Lemma handle_GET_root (g : globals) (req : request) (update : string)
    (items : list ToDo) (h : heap) (w : World) (cs : list ai_event) :
  pristine g h ->
  req_method req = GET ->
  req_path req = "/" ->
  assoc "update" (req_query req) = Some update ->
  request_todos req = Ok items ->
  handle' g req (mkMachine h w cs)
  = answer' update items (length h)
      (h ++ [PyList items; PyToDoState (mkToDoState (length h))]) w cs.
Proof.
  intros Hp Hm Hpath Hu Hitems.
  rewrite (handle_eval g req (mkMachine h w cs) Hp), Hm, Hpath.
  cbn [String.eqb Ascii.eqb Bool.eqb http_method_eqb andb].
  rewrite (endpoint_run_eval _ _ _ _ _ Hp), Hu, Hitems. reflexivity.
Qed.



(** C8: a request without a body is served exactly as a call of [run] on
    a freshly built [ToDoState()], whose list is empty. The default of
    the [state] parameter is the [ToDoState()] evaluated when [run] was
    defined, and it still has no to-dos however many requests went
    before. *)
Theorem omitted_state_is_fresh (g : globals) (m : machine World)
    (req : request) (update : string) :
  serving' g m ->
  req_method req = GET ->
  req_path req = "/" ->
  assoc "update" (req_query req) = Some update ->
  req_body req = None ->
  handle' g req m
  = (s ← lift (ToDoState_init (ToDoState_todos_default g) []);
     r ← run' update s;
     body ← lift (ToDoResponse_dump r);
     mret (Http200 body)) m
  /\ (exists s m1,
        lift (AIExn := AIExn) (ToDoState_init (ToDoState_todos_default g) []) m
        = (Return s, m1)
        /\ read_state s (mem m1) = Some [])
  /\ read_state (run_state_default g) (mem m) = Some []
  /\ (exists h0 h1,
        ToDoState_class [] = (Return (ToDoState_todos_default g), h0)
        /\ ToDoState_init (ToDoState_todos_default g) [] h0
           = (Return (run_state_default g), h1)).
Proof.
  intros Hserving Hm Hpath Hu Hbody.
  pose proof (serving_pristine g m Hserving) as Hp.
  assert (Hdef : exists h0 h1,
             ToDoState_class [] = (Return (ToDoState_todos_default g), h0)
             /\ ToDoState_init (ToDoState_todos_default g) [] h0
                = (Return (run_state_default g), h1)).
  { clear -Hserving. induction Hserving as [h0 w0 Hboot|]; [|assumption].
    rewrite notebook_boot in Hboot. injection Hboot as <- <-.
    eexists _, _. split; reflexivity. }
  destruct m as [h w cs]. cbn [mem] in *.
  pose proof Hp as (Happ & Hd & Hdefault).
  assert (Hitems : request_todos req = Ok [])
    by (unfold request_todos; by rewrite Hbody).
  assert (Hinit : lift (World := World) (AIExn := AIExn)
                    (ToDoState_init (ToDoState_todos_default g) [])
                    (mkMachine h w cs)
                  = (Return (S (length h)),
                     mkMachine (h ++ [PyList []; PyToDoState (mkToDoState (length h))])
                       w cs)).
  { unfold lift. cbn [mem world calls].
    by rewrite (ToDoState_init_default _ [] [] h eq_refl Hd). }
  split; [|split; [|split]].
  - rewrite (handle_GET_root g req update [] h w cs Hp Hm Hpath Hu Hitems).
    unfold mbind at 1. unfold ST_bind at 1. rewrite Hinit.
    symmetry.
    apply (serve_run_eval update (S (length h)) (length h) []);
      [apply lookup_fresh_state|apply lookup_fresh_list].
  - eexists _, _. split; [exact Hinit|]. apply read_state_fresh.
  - exact Hdefault.
  - exact Hdef.
Qed.

(** C4: [run] keeps nothing between requests. Two calls with the same
    update on states holding the same to-dos, the assistant behaving
    alike, come to the same result; a request is answered the same
    whatever requests were served before; and serving a request leaves
    every object that existed before untouched, the two defaults
    included. *)
Theorem run_stateless :
  (forall update items s1 s2 m1 m2,
      read_state s1 (mem m1) = Some items ->
      read_state s2 (mem m2) = Some items ->
      behaviour' items update (world m1) = behaviour' items update (world m2) ->
      observe (run' update s1 m1) = observe (run' update s2 m2))
  /\ (forall g req m1 m2,
        serving' g m1 ->
        serving' g m2 ->
        (forall items update,
            behaviour' items update (world m1) = behaviour' items update (world m2)) ->
        (handle' g req m1).1 = (handle' g req m2).1)
  /\ (forall g req m,
        serving' g m ->
        keeps (mem m) (mem (handle' g req m).2)
        /\ pristine g (mem (handle' g req m).2)).
Proof.
  split; [|split].
  - intros update items s1 s2 m1 m2 H1 H2 Hsame.
    rewrite (run_observe update s1 items m1 H1).
    rewrite (run_observe update s2 items m2 H2).
    by rewrite Hsame.
  - intros g req m1 m2 Hs1 Hs2 Hsame.
    pose proof (serving_pristine g m1 Hs1) as Hp1.
    pose proof (serving_pristine g m2 Hs2) as Hp2.
    rewrite (handle_eval g req m1 Hp1), (handle_eval g req m2 Hp2).
    destruct (String.eqb "/" (req_path req)
              && http_method_eqb (req_method req) GET); [|reflexivity].
    destruct m1 as [h1 w1 cs1], m2 as [h2 w2 cs2]. cbn [mem world] in *.
    rewrite (endpoint_run_eval _ _ _ _ _ Hp1), (endpoint_run_eval _ _ _ _ _ Hp2).
    destruct (assoc "update" (req_query req)) as [update|]; [|reflexivity].
    destruct (request_todos req) as [items| |]; [|reflexivity..].
    rewrite !answer_outcome. by rewrite Hsame.
  - intros g req m Hs. pose proof (serving_pristine g m Hs) as Hp.
    pose proof (handle_keeps g req m Hp) as Hk.
    split; [exact Hk|]. by apply keeps_pristine with (mem m).
Qed.

End AI_properties.

(** ** The handler on the toy assistant *)

Lemma run_forwards_witness :
  read_state 4 (mem toy_with_state) = Some [example_item]
  /\ run toy_construct toy_respond "Buy milk" 4 toy_with_state
     = (Return (mkToDoResponse "Added: Buy milk" 4),
        mkMachine
          [PyList []; PyList []; PyToDoState (mkToDoState 1);
           PyList [example_item; mkToDo "Buy milk" "Buy milk" None false];
           PyToDoState (mkToDoState 3)]
          2
          [Constructed run_description [example_item];
           Called run_description [example_item] "Buy milk"]).
Proof.
  split; [reflexivity|].
  exact (proj1 (run_forwards nat string toy_construct toy_respond
                  "Buy milk" 4 [example_item] toy_with_state
                  (mkMachine (mem toy_with_state) 1
                     [Constructed run_description [example_item]])
                  _
                  (mkAIApplication 4 run_description)
                  (mkAIApplication 4 run_description)
                  (mkAIResponse "Added: Buy milk")
                  eq_refl eq_refl eq_refl)).
Defined.

Lemma run_raises_iff_witness :
  read_state 4 (mem toy_with_state) = Some [example_item]
  /\ (run toy_construct toy_respond "" 4 toy_with_state).1
     = Raise (AIError "empty update").
Proof.
  split; [reflexivity|].
  apply (proj1 (proj2 (run_raises_iff nat string toy_construct toy_respond
                         "" 4 [example_item] toy_with_state toy_with_state
                         (AIError "empty update") eq_refl))).
  exists "empty update". split; [reflexivity|]. right. split; reflexivity.
Defined.

Lemma toy_server_serving :
  serving toy_construct toy_respond toy_gateway toy_globals toy_server.
Proof. apply serving_boot. reflexivity. Defined.

Lemma toy_after_one_serving :
  serving toy_construct toy_respond toy_gateway toy_globals toy_after_one.
Proof.
  apply serving_request
    with toy_server craig_request
         (handle toy_construct toy_respond toy_gateway toy_globals craig_request
            toy_server).1.
  - exact toy_server_serving.
  - reflexivity.
Defined.



Lemma omitted_state_is_fresh_witness :
  serving toy_construct toy_respond toy_gateway toy_globals toy_after_one
  /\ req_body craig_request = None
  /\ calls toy_after_one <> []
  /\ read_state (run_state_default toy_globals) (mem toy_after_one) = Some [].
Proof.
  split; [exact toy_after_one_serving|]. split; [reflexivity|].
  split; [discriminate|].
  pose proof (omitted_state_is_fresh nat string toy_construct toy_respond
                toy_gateway toy_globals toy_after_one craig_request
                "Remind me I have an appointment with Craig tomorrow at 9AM"
                toy_after_one_serving eq_refl eq_refl eq_refl eq_refl) as Hfresh.
  destruct Hfresh as (_ & _ & Hdefault & _). exact Hdefault.
Defined.

Lemma run_stateless_witness :
  (forall items update,
      behaviour toy_construct toy_respond items update (world toy_server)
      = behaviour toy_construct toy_respond items update (world toy_after_one))
  /\ (handle toy_construct toy_respond toy_gateway toy_globals craig_request
        toy_server).1
     = (handle toy_construct toy_respond toy_gateway toy_globals craig_request
          toy_after_one).1.
Proof.
  assert (Hsame : forall items update,
             behaviour toy_construct toy_respond items update (world toy_server)
             = behaviour toy_construct toy_respond items update
                 (world toy_after_one)).
  { intros items update. unfold behaviour, toy_construct, toy_respond.
    cbn [fst snd]. destruct (String.eqb update ""); reflexivity. }
  split; [exact Hsame|].
  exact (proj1 (proj2 (run_stateless nat string toy_construct toy_respond
                         toy_gateway))
           toy_globals craig_request toy_server toy_after_one
           toy_server_serving toy_after_one_serving Hsame).
Defined.

(** ** Instances and the default list *)

Lemma todos_append_eval (s l : loc) (t : ToDo) (items : list ToDo) (h : heap) :
  h !! s = Some (PyToDoState (mkToDoState l)) ->
  h !! l = Some (PyList items) ->
  todos_append s t h = (Return (), <[l := PyList (items ++ [t])]> h).
Proof.
  intros Hs Hl. unfold todos_append, mbind, ST_bind, get_todos, get_list, set_list.
  rewrite Hs. cbn [todos]. by rewrite Hl, Hl.
Qed.

Lemma from_default_separate (d : loc) (h : heap) (insts : list loc) :
  from_default d h insts -> separate d h insts.
Proof.
  induction 1 as [h0 h Hclass|h insts s h' _ IH Hnew|h insts s t h' _ IH Hin Happ].
  - injection Hclass as <- <-. split; [apply lookup_new|].
    split; [intros ? Hin|intros ? ? ? Hin]; by apply elem_of_nil in Hin.
  - destruct IH as (Hd & Hinst & Hinj).
    rewrite (ToDoState_init_default d [] [] h eq_refl Hd) in Hnew.
    injection Hnew as <- <-.
    assert (Hold : forall a, a ∈ insts -> a < length h).
    { intros a (l & items & Ha & _)%Hinst. by eapply lookup_valid. }
    split; [|split].
    + rewrite lookup_old; [exact Hd|by eapply lookup_valid].
    + intros a [->|Ha]%elem_of_cons.
      * exists (length h), []. split; [apply lookup_fresh_state|].
        split; [apply lookup_fresh_list|].
        apply lookup_valid in Hd. lia.
      * destruct (Hinst a Ha) as (l & items & Hs & Hl & Hne).
        exists l, items. split; [|split; [|exact Hne]].
        -- rewrite lookup_old; [exact Hs|by eapply lookup_valid].
        -- rewrite lookup_old; [exact Hl|by eapply lookup_valid].
    + intros a b l [->|Ha]%elem_of_cons [->|Hb]%elem_of_cons.
      * reflexivity.
      * rewrite lookup_fresh_state. intros [= <-].
        rewrite lookup_old by (by apply Hold).
        intros Hb'. destruct (Hinst b Hb) as (l & items & Hs & Hl & _).
        rewrite Hs in Hb'. injection Hb' as ->. apply lookup_valid in Hl. lia.
      * intros Ha'. rewrite lookup_fresh_state. intros [= <-].
        rewrite lookup_old in Ha' by (by apply Hold).
        destruct (Hinst a Ha) as (l & items & Hs & Hl & _).
        rewrite Hs in Ha'. injection Ha' as ->. apply lookup_valid in Hl. lia.
      * rewrite !lookup_old by (by apply Hold). by apply Hinj.
  - destruct IH as (Hd & Hinst & Hinj).
    destruct (Hinst s Hin) as (l & items & Hs & Hl & Hne).
    rewrite (todos_append_eval s l t items h Hs Hl) in Happ.
    injection Happ as <-.
    assert (Hstate : forall a la, h !! a = Some (PyToDoState (mkToDoState la)) ->
                       <[l := PyList (items ++ [t])]> h !! a
                       = Some (PyToDoState (mkToDoState la))).
    { intros a la Ha. rewrite list_lookup_insert_ne; [exact Ha|].
      intros ->. congruence. }
    split; [|split].
    + rewrite list_lookup_insert_ne; [exact Hd|exact Hne].
    + intros a Ha. destruct (Hinst a Ha) as (la & its & Has & Hal & Hane).
      exists la. destruct (decide (la = l)) as [->|Hla].
      * exists (items ++ [t]). split; [by apply Hstate|]. split; [|exact Hane].
        apply list_lookup_insert_eq. by eapply lookup_valid.
      * exists its. split; [by apply Hstate|]. split; [|exact Hane].
        rewrite list_lookup_insert_ne; [exact Hal|congruence].
    + intros a b la Ha Hb Hla Hlb.
      destruct (Hinst a Ha) as (la' & ? & Has & _).
      destruct (Hinst b Hb) as (lb' & ? & Hbs & _).
      rewrite (Hstate a la' Has) in Hla. rewrite (Hstate b lb' Hbs) in Hlb.
      injection Hla as ->. injection Hlb as ->. by apply (Hinj a b la).
Qed.

(** C10: instances built from the default never share the default list.
    Each [ToDoState()] gets an empty list of its own, which is neither the
    default list nor the list of another instance; appending a to-do to
    one instance changes that instance only, and leaves the default list
    empty for the instances to come. *)
Theorem default_list_not_shared (d : loc) (h : heap) (insts : list loc) :
  from_default d h insts ->
  (exists s h',
      ToDoState_init d [] h = (Return s, h')
      /\ read_state s h' = Some []
      /\ from_default d h' (s :: insts))
  /\ (forall a, a ∈ insts ->
        exists la, get_todos a h = (Return la, h)
          /\ la <> d
          /\ forall b, b ∈ insts -> b <> a -> get_todos b h <> (Return la, h))
  /\ (forall a t, a ∈ insts ->
        exists items h',
          read_state a h = Some items
          /\ todos_append a t h = (Return (), h')
          /\ read_state a h' = Some (items ++ [t])
          /\ h' !! d = Some (PyList [])
          /\ forall b, b ∈ insts -> b <> a -> read_state b h' = read_state b h).
Proof.
  intros Hfrom. pose proof (from_default_separate d h insts Hfrom) as (Hd & Hinst & Hinj).
  split; [|split].
  - eexists _, _. split; [exact (ToDoState_init_default d [] [] h eq_refl Hd)|].
    split; [apply read_state_fresh|].
    apply fd_new with h; [exact Hfrom|].
    exact (ToDoState_init_default d [] [] h eq_refl Hd).
  - intros a Ha. destruct (Hinst a Ha) as (la & items & Has & Hal & Hne).
    exists la. split; [|split; [exact Hne|]].
    + unfold get_todos. by rewrite Has.
    + intros b Hb Hba. destruct (Hinst b Hb) as (lb & ? & Hbs & _).
      unfold get_todos. rewrite Hbs. cbn [todos]. intros [= ->].
      apply Hba. by apply (Hinj b a la).
  - intros a t Ha. destruct (Hinst a Ha) as (la & items & Has & Hal & Hne).
    exists items, (<[la := PyList (items ++ [t])]> h).
    assert (Hstate : forall b lb, h !! b = Some (PyToDoState (mkToDoState lb)) ->
                       <[la := PyList (items ++ [t])]> h !! b
                       = Some (PyToDoState (mkToDoState lb))).
    { intros b lb Hb. rewrite list_lookup_insert_ne; [exact Hb|].
      intros ->. congruence. }
    split; [|split; [|split; [|split]]].
    + apply read_state_lookup. eauto.
    + by apply todos_append_eval.
    + apply read_state_lookup. exists la. split; [by apply Hstate|].
      apply list_lookup_insert_eq. by eapply lookup_valid.
    + rewrite list_lookup_insert_ne; [exact Hd|exact Hne].
    + intros b Hb Hba. destruct (Hinst b Hb) as (lb & its & Hbs & Hbl & _).
      unfold read_state. rewrite (Hstate b lb Hbs), Hbs. cbn [todos].
      rewrite list_lookup_insert_ne; [reflexivity|].
      intros ->. apply Hba. by apply (Hinj b a lb).
Qed.

Lemma default_list_not_shared_witness :
  from_default 0
    [PyList []; PyList []; PyToDoState (mkToDoState 1);
     PyList []; PyToDoState (mkToDoState 3)] [4; 2]
  /\ exists h',
      todos_append 2 example_item
        [PyList []; PyList []; PyToDoState (mkToDoState 1);
         PyList []; PyToDoState (mkToDoState 3)] = (Return (), h')
      /\ read_state 2 h' = Some [example_item]
      /\ read_state 4 h' = Some [].
Proof.
  assert (Hfrom : from_default 0
            [PyList []; PyList []; PyToDoState (mkToDoState 1);
             PyList []; PyToDoState (mkToDoState 3)] [4; 2]).
  { apply fd_new with [PyList []; PyList []; PyToDoState (mkToDoState 1)];
      [|reflexivity].
    apply fd_new with [PyList []]; [|reflexivity].
    apply fd_class with []. reflexivity. }
  split; [exact Hfrom|].
  destruct (default_list_not_shared 0 _ _ Hfrom) as (_ & _ & Happend).
  destruct (Happend 2 example_item) as (items & h' & Hread & Happ & Hown & _ & Hothers).
  { apply list_elem_of_further, list_elem_of_here. }
  exists h'. split; [exact Happ|]. split.
  - injection Hread as <-. exact Hown.
  - rewrite (Hothers 4); [reflexivity|apply list_elem_of_here|discriminate].
Defined.

(** * Further properties *)

(** ** Date-times in JSON *)

Lemma digit_digit_char (n : N) : digit (digit_char n) = Some (n mod 10)%N.
Proof.
  unfold digit, digit_char.
  assert (Hlt : (n mod 10 < 10)%N) by (apply N.mod_lt; discriminate).
  generalize dependent (n mod 10)%N. intros r Hlt.
  rewrite Ascii.N_ascii_embedding by lia.
  replace ((48 <=? 48 + r) && (48 + r <=? 57))%N with true.
  - f_equal. lia.
  - symmetry. apply andb_true_iff. split; apply N.leb_le; lia.
Qed.

Lemma two_digits (n : N) :
  (n < 100)%N -> (10 * (10 * 0 + (n / 10) mod 10) + n mod 10)%N = n.
Proof. intros Hn. zify. Z.to_euclidean_division_equations. lia. Qed.

Lemma four_digits (n : N) :
  (n < 10000)%N ->
  (10 * (10 * (10 * (10 * 0 + (n / 1000) mod 10) + (n / 100) mod 10)
         + (n / 10) mod 10) + n mod 10)%N = n.
Proof. intros Hn. zify. Z.to_euclidean_division_equations. lia. Qed.

Lemma days_in_month_le (y m : N) : (days_in_month y m <= 31)%N.
Proof.
  unfold days_in_month.
  repeat match goal with
         | |- context [match ?x with _ => _ end] => destruct x
         end; lia.
Qed.

Lemma parse_isoformat (d : datetime) :
  valid_datetime d = true -> parse_datetime (isoformat d) = Some d.
Proof.
  intros Hvalid. pose proof Hvalid as Hbounds.
  unfold valid_datetime in Hbounds.
  repeat (apply andb_true_iff in Hbounds as [Hbounds ?]).
  pose proof (days_in_month_le (year d) (month d)).
  repeat match goal with
         | Hb : (_ <=? _)%N = true |- _ => apply N.leb_le in Hb
         | Hb : (_ <? _)%N = true |- _ => apply N.ltb_lt in Hb
         end.
  destruct d as [y m dd h n sec]. cbn [year month day hour minute second] in *.
  unfold parse_datetime.
  lazy beta iota zeta delta [isoformat pad4 pad2 append list_ascii_of_string
                              year month day hour minute second].
  unfold is_char. cbn [String.eqb Ascii.eqb Bool.eqb andb].
  cbn [digits]. rewrite !digit_digit_char.
  cbn [mbind option_bind].
  rewrite four_digits by lia. rewrite !two_digits by lia.
  rewrite Hvalid. reflexivity.
Qed.

Lemma iso_shaped_isoformat (d : datetime) : iso_shaped (isoformat d) = true.
Proof.
  destruct d as [y m dd h n sec]. unfold iso_shaped.
  lazy beta iota zeta delta [isoformat pad4 pad2 append list_ascii_of_string
                              year month day hour minute second].
  unfold is_char. cbn [String.eqb Ascii.eqb Bool.eqb andb].
  repeat (cbn [digits]; rewrite digit_digit_char).
  reflexivity.
Qed.

(** ** To-dos through JSON and back *)

Lemma ToDo_validate_dump_dated (field : string) (t : ToDo) :
  dated t = true -> ToDo_validate field (ToDo_dump t) = Ok t.
Proof.
  destruct t as [ti de [d|] dn]; [|discriminate].
  unfold dated. cbn [due_date]. intros Hvalid.
  unfold ToDo_validate, ToDo_dump, ToDo_init, required, defaulted.
  cbn [title description due_date done assoc String.eqb Ascii.eqb Bool.eqb
       validate_str validate_bool validate_datetime mbind result_bind].
  rewrite (parse_isoformat d Hvalid). reflexivity.
Qed.

Lemma ToDo_validate_dump_undated (field : string) (t : ToDo) :
  due_date t = None ->
  ToDo_validate field (ToDo_dump t) = Err (WrongType "due_date").
Proof.
  destruct t as [ti de [d|] dn]; [discriminate|]. intros _. reflexivity.
Qed.

Lemma ToDo_validate_dump_cases (field : string) (t : ToDo) :
  (exists t', ToDo_validate field (ToDo_dump t) = Ok t')
  \/ ToDo_validate field (ToDo_dump t) = Err (WrongType "due_date").
Proof.
  destruct t as [ti de [d|] dn]; [|by right].
  unfold ToDo_validate, ToDo_dump, ToDo_init, required, defaulted.
  cbn [title description due_date done assoc String.eqb Ascii.eqb Bool.eqb
       validate_str validate_bool validate_datetime mbind result_bind].
  destruct (parse_datetime (isoformat d)); [left; eauto|].
  rewrite iso_shaped_isoformat. by right.
Qed.

Lemma validate_todos_dump_dated (items : list ToDo) :
  forallb dated items = true ->
  validate_todos "todos" (VList (ToDo_dump <$> items)) = Ok items.
Proof.
  cbn [validate_todos].
  induction items as [|t items IH]; [reflexivity|].
  cbn [forallb]. intros [Ht Hrest]%andb_true_iff.
  cbn [fmap list_fmap validate_all].
  rewrite (ToDo_validate_dump_dated "todos" t Ht). cbn [mbind result_bind].
  change (list_fmap _ _ ?f items) with (f <$> items).
  by rewrite (IH Hrest).
Qed.

Lemma validate_todos_dump_undated (items : list ToDo) (t : ToDo) :
  t ∈ items -> due_date t = None ->
  validate_todos "todos" (VList (ToDo_dump <$> items))
  = Err (WrongType "due_date").
Proof.
  cbn [validate_todos]. intros Hin Hnone.
  induction items as [|t0 items IH]; [by apply elem_of_nil in Hin|].
  cbn [fmap list_fmap validate_all].
  change (list_fmap _ _ ?f items) with (f <$> items).
  apply elem_of_cons in Hin as [<-|Hin].
  - by rewrite (ToDo_validate_dump_undated "todos" t Hnone).
  - destruct (ToDo_validate_dump_cases "todos" t0) as [[t' ->]| ->]; [|reflexivity].
    cbn [mbind result_bind]. by rewrite (IH Hin).
Qed.

Lemma ToDoState_dump_read (s : loc) (items : list ToDo) (h : heap) :
  read_state s h = Some items ->
  ToDoState_dump s h = (Return (state_payload items), h).
Proof.
  intros (l & Hs & Hl)%read_state_lookup.
  unfold ToDoState_dump, mbind, ST_bind, get_todos, get_list.
  rewrite Hs. cbn [todos]. by rewrite Hl.
Qed.

(** X1: a state serialised to JSON validates into a new instance with
    the same to-dos in the same order, provided every to-do has a due
    date; the instance it was read from is left as it was. *)
Theorem state_json_round_trip (d s : loc) (items : list ToDo) (h : heap) :
  read_state s h = Some items ->
  forallb dated items = true ->
  exists v s' h',
    ToDoState_dump s h = (Return v, h)
    /\ ToDoState_validate d "state" v h = (Return s', h')
    /\ read_state s' h' = Some items
    /\ read_state s h' = Some items
    /\ s' <> s.
Proof.
  intros Hread Hdated.
  exists (state_payload items), (S (length h)),
    (h ++ [PyList items; PyToDoState (mkToDoState (length h))]).
  split; [by apply ToDoState_dump_read|]. split; [|split; [|split]].
  - cbn [ToDoState_validate state_payload].
    apply ToDoState_init_given with (VList (ToDo_dump <$> items)); [reflexivity|].
    by apply validate_todos_dump_dated.
  - apply read_state_fresh.
  - apply read_state_lookup in Hread as (l & Hs & Hl).
    apply read_state_lookup. exists l.
    split; (rewrite lookup_old; [assumption|by eapply lookup_valid]).
  - apply read_state_lookup in Hread as (l & Hs & _).
    apply lookup_valid in Hs. lia.
Qed.

Lemma state_json_round_trip_witness :
  read_state 4 (mem toy_with_state) = Some [example_item]
  /\ forallb dated [example_item] = true
  /\ exists v s' h',
      ToDoState_dump 4 (mem toy_with_state) = (Return v, mem toy_with_state)
      /\ ToDoState_validate 0 "state" v (mem toy_with_state) = (Return s', h')
      /\ read_state s' h' = Some [example_item]
      /\ read_state 4 h' = Some [example_item]
      /\ s' <> 4.
Proof.
  split; [reflexivity|]. split; [reflexivity|].
  exact (state_json_round_trip 0 4 [example_item] (mem toy_with_state)
           eq_refl eq_refl).
Defined.

(** X2: a state that holds a to-do without a due date does not come back
    from its own JSON: [due_date] is serialised as [null], which the
    [datetime] annotation refuses, and nothing is built. *)
Theorem undated_state_does_not_validate (d s : loc) (items : list ToDo)
    (t : ToDo) (h : heap) :
  read_state s h = Some items ->
  t ∈ items ->
  due_date t = None ->
  ToDoState_dump s h = (Return (state_payload items), h)
  /\ assoc "due_date" (match ToDo_dump t with VDict kw => kw | _ => [] end)
     = Some VNone
  /\ ToDoState_validate d "state" (state_payload items) h
     = (Raise (WrongType "due_date"), h).
Proof.
  intros Hread Hin Hnone. split; [by apply ToDoState_dump_read|]. split.
  - unfold ToDo_dump. rewrite Hnone. reflexivity.
  - cbn [ToDoState_validate state_payload]. unfold ToDoState_init.
    cbn [assoc String.eqb Ascii.eqb Bool.eqb].
    by rewrite (validate_todos_dump_undated items t Hin Hnone).
Qed.
(** X11: every response body with dated to-dos parses as a
    [ToDoResponse] that holds the same content and the same to-dos, and
    serialising that instance gives the body back. *)
Theorem response_json_round_trip (d : loc) (c : string) (items : list ToDo)
    (h : heap) :
  forallb dated items = true ->
  exists r h',
    ToDoResponse_validate d (response_body c items) h = (Return r, h')
    /\ content r = c
    /\ read_state (state r) h' = Some items
    /\ ToDoResponse_dump r h' = (Return (response_body c items), h').
Proof.
  intros Hdated.
  exists (mkToDoResponse c (S (length h))),
    (h ++ [PyList items; PyToDoState (mkToDoState (length h))]).
  split; [|split; [reflexivity|split]].
  - unfold ToDoResponse_validate, response_body, required.
    cbn [assoc String.eqb Ascii.eqb Bool.eqb validate_str check].
    unfold mbind at 1. unfold ST_bind at 1. cbn [mret ST_ret].
    cbn [ToDoState_validate]. unfold mbind, ST_bind.
    rewrite (ToDoState_init_given d
               [("todos", VList (ToDo_dump <$> items))]
               (VList (ToDo_dump <$> items)) items h
               eq_refl (validate_todos_dump_dated items Hdated)).
    reflexivity.
  - apply read_state_fresh.
  - unfold ToDoResponse_dump, mbind, ST_bind. cbn [state content].
    by rewrite (ToDoState_dump_read _ items _ (read_state_fresh h items)).
Qed.

Lemma response_json_round_trip_witness :
  forallb dated [example_item; example_item] = true
  /\ exists r h',
      ToDoResponse_validate 0 (response_body "Two of them." [example_item; example_item])
        [PyList []] = (Return r, h')
      /\ content r = "Two of them."
      /\ read_state (state r) h' = Some [example_item; example_item]
      /\ ToDoResponse_dump r h'
         = (Return (response_body "Two of them." [example_item; example_item]), h').
Proof.
  split; [reflexivity|].
  exact (response_json_round_trip 0 "Two of them." [example_item; example_item]
           [PyList []] eq_refl).
Defined.

Lemma undated_state_does_not_validate_witness :
  read_state 4 (mem toy_after_one) = Some [craig_reminder]
  /\ (craig_reminder ∈ [craig_reminder])
  /\ due_date craig_reminder = None
  /\ ToDoState_validate 0 "state" (state_payload [craig_reminder])
       (mem toy_after_one)
     = (Raise (WrongType "due_date"), mem toy_after_one).
Proof.
  split; [reflexivity|]. split; [apply list_elem_of_here|].
  split; [reflexivity|].
  exact (proj2 (proj2 (undated_state_does_not_validate 0 4 [craig_reminder]
                         craig_reminder (mem toy_after_one) eq_refl
                         (list_elem_of_here _ _) eq_refl))).
Defined.

(** ** The service, request by request *)

Section Service_properties.

Variable World : Type.
Variable AIExn : Type.
Variable ai_construct : string -> list ToDo -> World -> option AIExn * World.
Variable ai_respond : string -> list ToDo -> string -> World -> AIReply AIExn * World.
Variable gateway : callable -> request -> ST (machine World) (exn AIExn) http_response.

Local Abbreviation run' := (run ai_construct ai_respond).
Local Abbreviation run_call' := (run_call ai_construct ai_respond).
Local Abbreviation serve_run' := (serve_run ai_construct ai_respond).
Local Abbreviation handle' := (handle ai_construct ai_respond gateway).
Local Abbreviation serving' := (serving ai_construct ai_respond gateway).
Local Abbreviation answer' := (answer ai_construct ai_respond).
Local Abbreviation behaviour' := (behaviour ai_construct ai_respond).

Lemma handle_root_eval (g : globals) (req : request) (m : machine World) :
  pristine g (mem m) ->
  req_method req = GET ->
  req_path req = "/" ->
  handle' g req m = endpoint_run ai_construct ai_respond g req m.
Proof.
  intros Hp Hm Hpath.
  by rewrite (handle_eval _ _ ai_construct ai_respond gateway g req m Hp),
    Hm, Hpath.
Qed.

Lemma request_todos_body (req : request) (v : value) :
  req_body req = Some v -> v <> VNone ->
  request_todos req = payload_todos [] "body" v.
Proof.
  intros Hbody Hv. unfold request_todos. rewrite Hbody.
  by destruct v.
Qed.

(** X3: a request whose body is refused as a [ToDoState] is answered 422
    with the validation error, and that is all: the assistant is not
    asked and the server is left as it was. So it is for a body that is
    neither an object nor [null], for a [todos] that is no list, and for
    a first to-do without a title. *)
Theorem invalid_state_is_refused (g : globals) (m : machine World)
    (req : request) (update : string) (v : value) :
  serving' g m ->
  req_method req = GET ->
  req_path req = "/" ->
  assoc "update" (req_query req) = Some update ->
  req_body req = Some v ->
  v <> VNone ->
  (forall e h',
      ToDoState_validate (ToDoState_todos_default g) "body" v (mem m)
      = (Raise e, h') ->
      handle' g req m = (Return (Http422 e), m))
  /\ ((forall kwargs, v <> VDict kwargs) ->
      handle' g req m = (Return (Http422 (WrongType "body")), m))
  /\ (forall kwargs tv,
        v = VDict kwargs -> assoc "todos" kwargs = Some tv ->
        (forall vs, tv <> VList vs) ->
        handle' g req m = (Return (Http422 (WrongType "todos")), m))
  /\ (forall kwargs fields more,
        v = VDict kwargs ->
        assoc "todos" kwargs = Some (VList (VDict fields :: more)) ->
        assoc "title" fields = None ->
        handle' g req m = (Return (Http422 (Missing "title")), m)).
Proof.
  intros Hserving Hm Hpath Hu Hbody Hnull.
  pose proof (serving_pristine _ _ _ _ _ g m Hserving) as Hp.
  pose proof Hp as (_ & Hd & _).
  assert (Hrefuse : forall e,
             payload_todos [] "body" v = Err e ->
             handle' g req m = (Return (Http422 e), m)).
  { intros e He. rewrite (handle_root_eval g req m Hp Hm Hpath).
    destruct m as [h w cs]. cbn [mem] in Hp.
    rewrite (endpoint_run_eval _ _ ai_construct ai_respond g req h w cs Hp), Hu.
    by rewrite (request_todos_body req v Hbody Hnull), He. }
  split; [|split; [|split]].
  - intros e h' Hraise. apply Hrefuse.
    rewrite (ToDoState_validate_eval _ _ _ _ _ Hd) in Hraise.
    destruct (payload_todos [] "body" v); [discriminate|congruence|discriminate].
  - intros Hshape. apply Hrefuse.
    destruct v; try reflexivity. by destruct (Hshape entries).
  - intros kwargs tv -> Hk Hshape. apply Hrefuse.
    cbn [payload_todos]. rewrite Hk.
    destruct tv; try reflexivity. by destruct (Hshape items).
  - intros kwargs fields more -> Hk Htitle. apply Hrefuse.
    cbn [payload_todos]. rewrite Hk.
    cbn [validate_todos validate_all ToDo_validate].
    unfold ToDo_init, required. by rewrite Htitle.
Qed.

(** X4: [run] constructs the application exactly once, on the to-dos of
    the state it was given and with the fixed description. When that
    construction raises, the application is never called and no object is
    changed; otherwise it is called exactly once, with the update. *)
Theorem run_asks_once (update : string) (s : loc) (items : list ToDo)
    (m : machine World) :
  read_state s (mem m) = Some items ->
  match (ai_construct run_description items (world m)).1 with
  | Some e =>
      run' update s m
      = (Raise (AIError e),
         mkMachine (mem m) (ai_construct run_description items (world m)).2
           (calls m ++ [Constructed run_description items]))
  | None =>
      calls (run' update s m).2
      = calls m ++ [Constructed run_description items;
                    Called run_description items update]
      /\ world (run' update s m).2
         = (ai_respond run_description items update
              (ai_construct run_description items (world m)).2).2
  end.
Proof.
  intros (l & Hs & Hl)%read_state_lookup. destruct m as [h w cs].
  cbn [mem world calls] in *.
  rewrite (run_eval _ _ ai_construct ai_respond update s l items h w cs Hs Hl).
  destruct (ai_construct run_description items w) as [[e|] w1]; cbn [fst snd].
  - reflexivity.
  - destruct (ai_respond run_description items update w1) as [reply w2].
    cbn [fst snd].
    destruct (reply_result reply); cbn [snd calls world];
      by rewrite <- app_assoc.
Qed.






Lemma handle_ok_body (g : globals) (req : request) (m m1 : machine World)
    (body : value) :
  serving' g m ->
  handle' g req m = (Return (Http200 body), m1) ->
  exists c items, body = response_body c items /\ serving' g m1.
Proof.
  intros Hserving Hok.
  assert (Hnext : serving' g m1) by (by eapply serving_request).
  pose proof (serving_pristine _ _ _ _ _ g m Hserving) as Hp.
  rewrite (handle_eval _ _ ai_construct ai_respond gateway g req m Hp) in Hok.
  destruct (String.eqb "/" (req_path req)
            && http_method_eqb (req_method req) GET);
    [|injection Hok as Hok _; by destruct (static_response_not_200 req body)].
  destruct m as [h w cs]. cbn [mem] in Hp.
  rewrite (endpoint_run_eval _ _ ai_construct ai_respond g req h w cs Hp) in Hok.
  destruct (assoc "update" (req_query req)) as [update|]; [|discriminate].
  destruct (request_todos req) as [items| |]; [|discriminate..].
  apply (f_equal fst) in Hok. rewrite answer_outcome in Hok. cbn [fst] in Hok.
  destruct (behaviour' items update w).1; [discriminate|].
  destruct (reply_result (behaviour' items update w).2) as [|c]; [discriminate|].
  injection Hok as <-. eauto.
Qed.

Lemma serve_on_new_state (update : string) (items : list ToDo)
    (h : heap) (w : World) (cs : list ai_event) :
  (s ← lift (new_ToDoState items); serve_run' update s) (mkMachine h w cs)
  = answer' update items (length h)
      (h ++ [PyList items; PyToDoState (mkToDoState (length h))]) w cs.
Proof.
  unfold mbind at 1. unfold ST_bind at 1. unfold lift. cbn [mem world calls].
  rewrite new_ToDoState_spec.
  apply serve_run_eval; [apply lookup_fresh_state|apply lookup_fresh_list].
Qed.

(** X6: the state a response carries can be sent back as it is. When
    every to-do in it has a due date, a request with that state as its
    body is served exactly as [run] on a new state holding those to-dos,
    in their order. *)
Theorem returned_state_is_served (g : globals) (m m1 : machine World)
    (req : request) (body : value) :
  serving' g m ->
  handle' g req m = (Return (Http200 body), m1) ->
  (exists c items,
      body = VDict [("content", VStr c); ("state", state_payload items)])
  /\ (forall c items req2 update2,
        body = VDict [("content", VStr c); ("state", state_payload items)] ->
        forallb dated items = true ->
        req_method req2 = GET ->
        req_path req2 = "/" ->
        assoc "update" (req_query req2) = Some update2 ->
        req_body req2 = Some (state_payload items) ->
        handle' g req2 m1
        = (s ← lift (new_ToDoState items); serve_run' update2 s) m1).
Proof.
  intros Hserving Hok.
  destruct (handle_ok_body g req m m1 body Hserving Hok) as (c & items & -> & Hnext).
  split; [by exists c, items|].
  intros c' items' req2 update2 _ Hdated Hm Hpath Hu Hbody.
  pose proof (serving_pristine _ _ _ _ _ g m1 Hnext) as Hp.
  destruct m1 as [h1 w1 cs1]. cbn [mem] in Hp.
  rewrite serve_on_new_state.
  apply (handle_GET_root _ _ ai_construct ai_respond gateway); try assumption.
  unfold request_todos. rewrite Hbody.
  cbn [payload_todos state_payload assoc String.eqb Ascii.eqb Bool.eqb].
  by apply validate_todos_dump_dated.
Qed.

(** X7: when the state a response carries holds a to-do without a due
    date, sending it back is refused: the request is answered 422 for
    [due_date], the assistant is not asked and the server is left as it
    was. *)
Theorem undated_returned_state_is_refused (g : globals) (m m1 : machine World)
    (req : request) (body : value) :
  serving' g m ->
  handle' g req m = (Return (Http200 body), m1) ->
  forall c items t req2 update2,
    body = VDict [("content", VStr c); ("state", state_payload items)] ->
    t ∈ items ->
    due_date t = None ->
    req_method req2 = GET ->
    req_path req2 = "/" ->
    assoc "update" (req_query req2) = Some update2 ->
    req_body req2 = Some (state_payload items) ->
    handle' g req2 m1 = (Return (Http422 (WrongType "due_date")), m1).
Proof.
  intros Hserving Hok c items t req2 update2 _ Hin Hnone Hm Hpath Hu Hbody.
  destruct (handle_ok_body g req m m1 body Hserving Hok) as (_ & _ & _ & Hnext).
  pose proof (serving_pristine _ _ _ _ _ g m1 Hnext) as Hp.
  rewrite (handle_root_eval g req2 m1 Hp Hm Hpath).
  destruct m1 as [h1 w1 cs1]. cbn [mem] in Hp.
  rewrite (endpoint_run_eval _ _ ai_construct ai_respond g req2 h1 w1 cs1 Hp), Hu.
  unfold request_todos. rewrite Hbody.
  cbn [payload_todos state_payload assoc String.eqb Ascii.eqb Bool.eqb].
  by rewrite (validate_todos_dump_undated items t Hin Hnone).
Qed.

Lemma endpoint_run_no_body (g : globals) (req : request) (update : string)
    (items : list ToDo) (m : machine World) :
  read_state (run_state_default g) (mem m) = Some items ->
  assoc "update" (req_query req) = Some update ->
  req_body req = None ->
  endpoint_run ai_construct ai_respond g req m
  = (s ← lift (new_ToDoState items); serve_run' update s) m.
Proof.
  intros Hdefault Hu Hbody. destruct m as [h w cs]. cbn [mem] in Hdefault.
  unfold endpoint_run, request_state. rewrite Hu, Hbody.
  unfold mbind, ST_bind, attempt, lift. cbn [mem world calls].
  by rewrite (deepcopy_eval _ _ _ Hdefault), new_ToDoState_spec.
Qed.

(** X8: a Python call of [run] that leaves out [state] works on the one
    default object. If the application updates the list of the state it
    is given, the default then holds what the application left: the
    response refers to the default object, the next such call starts
    from those to-dos, and so does the next request without a body. *)
Theorem direct_call_shares_default (g : globals) (m : machine World)
    (update : string) (items : list ToDo) :
  read_state (run_state_default g) (mem m) = Some items ->
  (ai_construct run_description items (world m)).1 = None ->
  reply_in_place (behaviour' items update (world m)).2 = true ->
  let reply := (behaviour' items update (world m)).2 in
  let m1 := (run_call' g update None m).2 in
  read_state (run_state_default g) (mem m1) = Some (reply_todos reply)
  /\ (forall c, reply_result reply = inr c ->
        (run_call' g update None m).1
        = Return (mkToDoResponse c (run_state_default g)))
  /\ (forall update2, exists rest,
        calls (run_call' g update2 None m1).2
        = calls m1 ++ Constructed run_description (reply_todos reply) :: rest)
  /\ (forall req update2,
        app g = [mkRoute "/" [GET] Fn_run] ->
        req_method req = GET ->
        req_path req = "/" ->
        assoc "update" (req_query req) = Some update2 ->
        req_body req = None ->
        handle' g req m1
        = (s ← lift (new_ToDoState (reply_todos reply)); serve_run' update2 s) m1).
Proof.
  intros Hread Hconstruct Hplace reply m1.
  assert (Hafter : read_state (run_state_default g) (mem m1)
                   = Some (reply_todos reply)
                   /\ (forall c, reply_result reply = inr c ->
                         (run_call' g update None m).1
                         = Return (mkToDoResponse c (run_state_default g)))).
  { subst reply m1. unfold run_call, behaviour in *. cbn [default fst snd] in *.
    apply read_state_lookup in Hread as (l & Hs & Hl). destruct m as [h w cs].
    cbn [mem world calls] in *.
    rewrite (run_eval _ _ ai_construct ai_respond update _ l items h w cs Hs Hl).
    destruct (ai_construct run_description items w) as [[e|] w1];
      [discriminate|]. cbn [fst snd] in *.
    destruct (ai_respond run_description items update w1) as [r w2].
    cbn [fst snd] in *.
    pose proof (read_state_after _ r _ l items h Hs Hl) as Hstate.
    unfold state_after in *. rewrite Hplace in *.
    split.
    - by destruct (reply_result r).
    - intros c ->. reflexivity. }
  destruct Hafter as [Hdefault Hresponse].
  split; [exact Hdefault|]. split; [exact Hresponse|]. split.
  - intros update2. unfold run_call. cbn [default]. clearbody m1.
    apply read_state_lookup in Hdefault as (l & Hs & Hl).
    destruct m1 as [h1 w1 cs1]. cbn [mem calls] in *.
    rewrite (run_eval _ _ ai_construct ai_respond update2 _ l
               (reply_todos reply) h1 w1 cs1 Hs Hl).
    destruct (ai_construct run_description (reply_todos reply) w1) as [[e|] w2].
    + cbn [snd calls]. by eexists.
    + destruct (ai_respond run_description (reply_todos reply) update2 w2)
        as [r w3].
      destruct (reply_result r); cbn [snd calls]; rewrite <- app_assoc;
        by eexists.
  - intros req update2 Happ Hm Hpath Hu Hbody.
    unfold handle, handle_api. rewrite Happ, Hm, Hpath.
    cbn [assoc builtin_routes find_route route_path route_methods
         route_endpoint existsb http_method_eqb String.eqb Ascii.eqb
         Bool.eqb orb].
    by apply endpoint_run_no_body.
Qed.


(** X10: a body that is an object without [todos] is served exactly as
    no body at all: the default list of [ToDoState.todos] and the default
    of [run]'s [state] are both empty, and stay so. *)
Theorem empty_state_object_is_default (g : globals) (m : machine World)
    (req : request) (kwargs : list (string * value)) :
  serving' g m ->
  req_body req = Some (VDict kwargs) ->
  assoc "todos" kwargs = None ->
  handle' g req m
  = handle' g (mkRequest (req_method req) (req_path req) (req_query req) None) m.
Proof.
  intros Hserving Hbody Hk.
  pose proof (serving_pristine _ _ _ _ _ g m Hserving) as Hp.
  rewrite !(handle_eval _ _ ai_construct ai_respond gateway g _ m Hp).
  cbn [req_path req_method].
  destruct (String.eqb "/" (req_path req)); [|reflexivity].
  destruct (http_method_eqb (req_method req) GET); [|reflexivity].
  destruct m as [h w cs]. cbn [mem] in Hp.
  rewrite !(endpoint_run_eval _ _ ai_construct ai_respond g _ h w cs Hp).
  cbn [req_query]. unfold request_todos. rewrite Hbody. cbn [req_body payload_todos].
  by rewrite Hk.
Qed.

End Service_properties.

(** ** The toy assistants, request by request *)

Lemma invalid_state_is_refused_witness :
  serving toy_construct toy_respond toy_gateway toy_globals toy_server
  /\ handle toy_construct toy_respond toy_gateway toy_globals
       (mkRequest GET "/" [("update", "Buy milk")] (Some (VInt 3))) toy_server
     = (Return (Http422 (WrongType "body")), toy_server)
  /\ handle toy_construct toy_respond toy_gateway toy_globals
       (mkRequest GET "/" [("update", "Buy milk")]
          (Some (VDict [("todos", VList [VDict [("description", VStr "milk")]])])))
       toy_server
     = (Return (Http422 (Missing "title")), toy_server).
Proof.
  split; [exact toy_server_serving|]. split.
  - refine (proj1 (proj2 (invalid_state_is_refused nat string toy_construct
                            toy_respond toy_gateway toy_globals toy_server
                            (mkRequest GET "/" [("update", "Buy milk")]
                               (Some (VInt 3)))
                            "Buy milk" (VInt 3)
                            toy_server_serving eq_refl eq_refl eq_refl eq_refl
                            _)) _).
    + intros Heq. discriminate Heq.
    + intros kwargs Heq. discriminate Heq.
  - refine (proj2 (proj2 (proj2
             (invalid_state_is_refused nat string toy_construct
                toy_respond toy_gateway toy_globals toy_server
                (mkRequest GET "/" [("update", "Buy milk")]
                   (Some (VDict [("todos",
                                  VList [VDict [("description", VStr "milk")]])])))
                "Buy milk"
                (VDict [("todos", VList [VDict [("description", VStr "milk")]])])
                toy_server_serving eq_refl eq_refl eq_refl eq_refl _)))
             _ _ _ eq_refl eq_refl eq_refl).
    intros Heq. discriminate Heq.
Defined.

Lemma run_asks_once_witness :
  read_state 4 (mem toy_with_state) = Some [example_item]
  /\ calls (run toy_construct toy_respond "Buy milk" 4 toy_with_state).2
     = [Constructed run_description [example_item];
        Called run_description [example_item] "Buy milk"].
Proof.
  split; [reflexivity|].
  exact (proj1 (run_asks_once nat string toy_construct toy_respond
                  "Buy milk" 4 [example_item] toy_with_state eq_refl)).
Defined.


Lemma echo_server_serving :
  serving toy_construct echo_respond toy_gateway toy_globals toy_server.
Proof. apply serving_boot. reflexivity. Defined.

Lemma returned_state_is_served_witness :
  serving toy_construct echo_respond toy_gateway toy_globals toy_server
  /\ (handle toy_construct echo_respond toy_gateway toy_globals
        example_request toy_server).1
     = Return (Http200 (VDict [("content", VStr "Nothing to do.");
                               ("state", state_payload [example_item])]))
  /\ forallb dated [example_item] = true
  /\ handle toy_construct echo_respond toy_gateway toy_globals example_request
       (handle toy_construct echo_respond toy_gateway toy_globals
          example_request toy_server).2
     = (s ← lift (new_ToDoState [example_item]);
        serve_run toy_construct echo_respond "What is on my list?" s)
         (handle toy_construct echo_respond toy_gateway toy_globals
            example_request toy_server).2.
Proof.
  split; [exact echo_server_serving|]. split; [reflexivity|].
  split; [reflexivity|].
  exact (proj2 (returned_state_is_served nat string toy_construct echo_respond
                  toy_gateway toy_globals toy_server
                  (handle toy_construct echo_respond toy_gateway toy_globals
                     example_request toy_server).2
                  example_request
                  (VDict [("content", VStr "Nothing to do.");
                          ("state", state_payload [example_item])])
                  echo_server_serving eq_refl)
           "Nothing to do." [example_item] example_request
           "What is on my list?" eq_refl eq_refl eq_refl eq_refl eq_refl eq_refl).
Defined.

Lemma undated_returned_state_is_refused_witness :
  serving toy_construct toy_respond toy_gateway toy_globals toy_server
  /\ handle toy_construct toy_respond toy_gateway toy_globals craig_request
       toy_server
     = (Return (Http200 (VDict [("content",
                                 VStr "Added: Remind me I have an appointment with Craig tomorrow at 9AM");
                                ("state", state_payload [craig_reminder])])),
        toy_after_one)
  /\ due_date craig_reminder = None
  /\ handle toy_construct toy_respond toy_gateway toy_globals
       (mkRequest GET "/" [("update", "Buy milk")]
          (Some (state_payload [craig_reminder]))) toy_after_one
     = (Return (Http422 (WrongType "due_date")), toy_after_one).
Proof.
  split; [exact toy_server_serving|]. split; [reflexivity|].
  split; [reflexivity|].
  exact (undated_returned_state_is_refused nat string toy_construct toy_respond
           toy_gateway toy_globals toy_server toy_after_one craig_request _
           toy_server_serving eq_refl
           "Added: Remind me I have an appointment with Craig tomorrow at 9AM"
           [craig_reminder] craig_reminder
           (mkRequest GET "/" [("update", "Buy milk")]
              (Some (state_payload [craig_reminder])))
           "Buy milk" eq_refl (list_elem_of_here _ _) eq_refl
           eq_refl eq_refl eq_refl eq_refl).
Defined.

Lemma direct_call_shares_default_witness :
  read_state (run_state_default toy_globals) (mem toy_server) = Some []
  /\ read_state (run_state_default toy_globals)
       (mem (run_call toy_construct toy_respond toy_globals "Buy milk" None
               toy_server).2)
     = Some [mkToDo "Buy milk" "Buy milk" None false].
Proof.
  split; [reflexivity|].
  exact (proj1 (direct_call_shares_default nat string toy_construct toy_respond
                  toy_gateway toy_globals toy_server "Buy milk" []
                  eq_refl eq_refl eq_refl)).
Defined.


Lemma empty_state_object_is_default_witness :
  serving toy_construct toy_respond toy_gateway toy_globals toy_after_one
  /\ handle toy_construct toy_respond toy_gateway toy_globals
       (mkRequest GET "/" [("update", "Buy milk")] (Some (VDict [])))
       toy_after_one
     = handle toy_construct toy_respond toy_gateway toy_globals
         (mkRequest GET "/" [("update", "Buy milk")] None) toy_after_one.
Proof.
  split; [exact toy_after_one_serving|].
  exact (empty_state_object_is_default nat string toy_construct toy_respond
           toy_gateway toy_globals toy_after_one
           (mkRequest GET "/" [("update", "Buy milk")] (Some (VDict [])))
           [] toy_after_one_serving eq_refl eq_refl).
Defined.
